(** * Student Expense Tracker: the expense screen, embedded and verified

    A shallow embedding of [ExpenseScreen.js] (the repository, the window
    classifier and the filter/aggregation engine of the screen component)
    together with the fragments of the JavaScript run time the code
    relies on: numbers with their special values, truthiness, string
    trimming, [parseFloat], [Date], and plain objects used as maps.

    Conventions of the embedding.
    - A JavaScript number is a [num]: [NaN], the two infinities, or a
      finite value carried as an exact rational.  The rounding of
      binary64 arithmetic on finite values and the sign of zero are not
      represented.
    - A JavaScript string is a [string] whose characters are read as code
      units below 256.
    - A [Date] is its time value: milliseconds since the epoch, or no
      value for an invalid date.  The local time zone is a fixed offset
      [tz] in minutes east of UTC; the clock is the argument [now].
    - The SQLite table is a list of rows with the AUTOINCREMENT counter;
      every statement issued through the database handle is recorded in
      a log.
    - A plain object used as a map is an association list in insertion
      order; keys that are array indices or names inherited from
      [Object.prototype] are outside the model. *)

From Stdlib Require Import ZArith QArith Qcanon List String Ascii Bool Lia Sorted Permutation.
Import ListNotations.

Open Scope string_scope.
Open Scope Z_scope.

(* ===================================================================== *)
(** ** JavaScript numbers *)
(* ===================================================================== *)

Module Num.

Inductive num : Type :=
| NaN
| PInf
| NInf
| Fin (q : Qc).

Definition zero : num := Fin (Q2Qc 0).

Definition of_Z (z : Z) : num := Fin (Q2Qc (inject_Z z)).

(** [a + b] on numbers. *)
Definition add (a b : num) : num :=
  match a, b with
  | NaN, _ | _, NaN => NaN
  | PInf, NInf | NInf, PInf => NaN
  | PInf, _ | _, PInf => PInf
  | NInf, _ | _, NInf => NInf
  | Fin x, Fin y => Fin (x + y)%Qc
  end.

(** [isNaN(a)]. *)
Definition isNaN (a : num) : bool :=
  match a with NaN => true | _ => false end.

(** [a <= 0]; every comparison with [NaN] is false. *)
Definition le0 (a : num) : bool :=
  match a with
  | NaN => false
  | PInf => false
  | NInf => true
  | Fin q => match (q ?= Q2Qc 0)%Qc with Gt => false | _ => true end
  end.

(** [a === b] on numbers: [NaN] differs from everything. *)
Definition strict_eq (a b : num) : bool :=
  match a, b with
  | PInf, PInf | NInf, NInf => true
  | Fin x, Fin y => Qc_eq_bool x y
  | _, _ => false
  end.

(** ToBoolean on a number: [0] and [NaN] are falsy. *)
Definition truthy (a : num) : bool :=
  match a with
  | NaN => false
  | Fin q => negb (Qc_eq_bool q (Q2Qc 0))
  | _ => true
  end.


(** Structural equality, decidable. *)
Definition eqb (a b : num) : bool :=
  match a, b with
  | NaN, NaN | PInf, PInf | NInf, NInf => true
  | Fin x, Fin y => Qc_eq_bool x y
  | _, _ => false
  end.

End Num.

Import Num.

(* ===================================================================== *)
(** ** JavaScript strings: whitespace, trim, parseFloat *)
(* ===================================================================== *)

Module Str.

Definition code (c : ascii) : Z := Z.of_nat (nat_of_ascii c).

(** WhiteSpace and LineTerminator code units below 256: TAB, LF, VT, FF,
    CR, SP and NBSP. *)
Definition is_space (c : ascii) : bool :=
  let n := code c in
  ((9 <=? n) && (n <=? 13)) || (n =? 32) || (n =? 160).

Definition is_empty (s : string) : bool :=
  match s with EmptyString => true | _ => false end.

Fixpoint trimStart (s : string) : string :=
  match s with
  | EmptyString => EmptyString
  | String c r => if is_space c then trimStart r else s
  end.

Fixpoint trimEnd (s : string) : string :=
  match s with
  | EmptyString => EmptyString
  | String c r =>
      let r' := trimEnd r in
      if is_space c && is_empty r' then EmptyString else String c r'
  end.

(** [s.trim()]. *)
Definition trim (s : string) : string := trimEnd (trimStart s).

Definition is_digit (c : ascii) : bool :=
  let n := code c in (48 <=? n) && (n <=? 57).

Definition digit_val (c : ascii) : Z := code c - 48.

(** Reads the longest run of decimal digits: accumulated value, number
    of digits read, and the rest of the input. *)
Fixpoint span_digits (s : string) (acc cnt : Z) : Z * Z * string :=
  match s with
  | String c r =>
      if is_digit c then span_digits r (10 * acc + digit_val c) (cnt + 1)
      else (acc, cnt, s)
  | EmptyString => (acc, cnt, s)
  end.

(** ExponentPart: [e] or [E], an optional sign and at least one digit;
    [0] when the input does not continue with one. *)
Definition exponent_part (s : string) : Z :=
  match s with
  | String c r =>
      if (code c =? 101) || (code c =? 69) then
        let '(neg, r1) :=
          match r with
          | String "-"%char r' => (true, r')
          | String "+"%char r' => (false, r')
          | _ => (false, r)
          end in
        let '(e, n, _) := span_digits r1 0 0 in
        if n =? 0 then 0 else if neg then - e else e
      else 0
  | EmptyString => 0
  end.

(** [m * 10^e] as an exact rational. *)
Definition scale10 (m e : Z) : Qc :=
  Q2Qc (inject_Z m * Qpower (inject_Z 10) e).

(** StrUnsignedDecimalLiteral without [Infinity]: the longest prefix
    [digits], [digits.], [digits.digits] or [.digits], each with an
    optional exponent. *)
Definition unsigned_decimal (s : string) : option Qc :=
  let '(ip, ni, r1) := span_digits s 0 0 in
  let '(fp, nf, r2) :=
    match r1 with
    | String "."%char r' => span_digits r' 0 0
    | _ => (0, 0, r1)
    end in
  if (ni =? 0) && (nf =? 0) then None
  else
    let m := ip * 10 ^ nf + fp in
    Some (scale10 m (exponent_part r2 - nf)).

(** [parseFloat(s)]: leading white space is skipped, then the longest
    prefix that is a StrDecimalLiteral is read; [NaN] when there is
    none. *)
Definition parseFloat (s : string) : num :=
  let t := trimStart s in
  let '(neg, u) :=
    match t with
    | String "-"%char r => (true, r)
    | String "+"%char r => (false, r)
    | _ => (false, t)
    end in
  if prefix "Infinity" u then (if neg then NInf else PInf)
  else
    match unsigned_decimal u with
    | None => NaN
    | Some q => Fin (if neg then (- q)%Qc else q)
    end.

End Str.

Import Str.

(* ===================================================================== *)
(** ** JavaScript dates *)
(* ===================================================================== *)

Module JSDate.

Definition msPerDay : Z := 86400000.
Definition msPerMinute : Z := 60000.

(** Day number and time within the day of a time value. *)
Definition Day (t : Z) : Z := t / msPerDay.
Definition TimeWithinDay (t : Z) : Z := t mod msPerDay.

(** Day of the week of a day number, [0] = Sunday; day [0] (1 January
    1970) is a Thursday. *)
Definition WeekDayOfDay (n : Z) : Z := (n + 4) mod 7.

(** Day number of the proleptic Gregorian date [y]-[m]-[d], [m] in
    [1..12]. *)
Definition days_from_civil (y m d : Z) : Z :=
  let y' := if m <=? 2 then y - 1 else y in
  let era := y' / 400 in
  let yoe := y' - era * 400 in
  let mp := if 2 <? m then m - 3 else m + 9 in
  let doy := (153 * mp + 2) / 5 + d - 1 in
  let doe := yoe * 365 + yoe / 4 - yoe / 100 + doy in
  era * 146097 + doe - 719468.

(** Year, month ([1..12]) and day of the month of a day number. *)
Definition civil_from_days (n : Z) : Z * Z * Z :=
  let z := n + 719468 in
  let era := z / 146097 in
  let doe := z - era * 146097 in
  let yoe := (doe - doe / 1460 + doe / 36524 - doe / 146096) / 365 in
  let y := yoe + era * 400 in
  let doy := doe - (365 * yoe + yoe / 4 - yoe / 100) in
  let mp := (5 * doy + 2) / 153 in
  let d := doy - (153 * mp + 2) / 5 + 1 in
  let m := if mp <? 10 then mp + 3 else mp - 9 in
  (if m <=? 2 then y + 1 else y, m, d).

(** MakeDay(year, month, date) with a month index from [0]; month and
    date may lie outside their usual ranges. *)
Definition MakeDay (year month date : Z) : Z :=
  let ym := year + month / 12 in
  let mn := month mod 12 in
  days_from_civil ym (mn + 1) 1 + date - 1.

(** A [Date] object: its time value, [None] for an invalid date. *)
Definition Date : Type := option Z.

(** An integer-valued number that may be [NaN]. *)
Definition inum : Type := option Z.

Definition inum_add (a b : inum) : inum :=
  match a, b with Some x, Some y => Some (x + y) | _, _ => None end.

Definition inum_sub (a b : inum) : inum :=
  match a, b with Some x, Some y => Some (x - y) | _, _ => None end.

(** [a === b] on numbers. *)
Definition inum_strict_eq (a b : inum) : bool :=
  match a, b with Some x, Some y => x =? y | _, _ => false end.

Section LocalZone.

(** Offset of local time from UTC, in minutes east of Greenwich. *)
Variable tz : Z.

Definition LocalTime (t : Z) : Z := t + tz * msPerMinute.
Definition UTC (t : Z) : Z := t - tz * msPerMinute.

Definition getFullYear (d : Date) : inum :=
  option_map (fun t => let '(y, _, _) := civil_from_days (Day (LocalTime t)) in y) d.

(** Month index, [0] = January. *)
Definition getMonth (d : Date) : inum :=
  option_map (fun t => let '(_, m, _) := civil_from_days (Day (LocalTime t)) in m - 1) d.

Definition getDate (d : Date) : inum :=
  option_map (fun t => let '(_, _, dd) := civil_from_days (Day (LocalTime t)) in dd) d.

Definition getDay (d : Date) : inum :=
  option_map (fun t => WeekDayOfDay (Day (LocalTime t))) d.

(** [new Date(year, month, date)]: local midnight of that day; a year
    in [0..99] stands for [1900 + year]. *)
Definition new_Date_ymd (year month date : inum) : Date :=
  match year, month, date with
  | Some y, Some m, Some dt =>
      let yr := if (0 <=? y) && (y <=? 99) then 1900 + y else y in
      Some (UTC (MakeDay yr m dt * msPerDay))
  | _, _, _ => None
  end.

End LocalZone.

(** *** Decimal rendering *)

Definition digit_char (n : Z) : ascii := ascii_of_nat (Z.to_nat (48 + n mod 10)).

(** The [w] low decimal digits of [n], zero padded. *)
Fixpoint pad (w : nat) (n : Z) : string :=
  match w with
  | O => ""
  | S w' => pad w' (n / 10) ++ String (digit_char n) ""
  end.

(** Number of decimal digits of [n >= 0], at least [4], at most [6]. *)
Definition year_width (n : Z) : nat :=
  if n <? 10000 then 4%nat else if n <? 100000 then 5%nat else 6%nat.

Definition day_name (wd : Z) : string :=
  match wd with
  | 0 => "Sun" | 1 => "Mon" | 2 => "Tue" | 3 => "Wed"
  | 4 => "Thu" | 5 => "Fri" | _ => "Sat"
  end.

Definition month_name (m : Z) : string :=
  match m with
  | 1 => "Jan" | 2 => "Feb" | 3 => "Mar" | 4 => "Apr" | 5 => "May"
  | 6 => "Jun" | 7 => "Jul" | 8 => "Aug" | 9 => "Sep" | 10 => "Oct"
  | 11 => "Nov" | _ => "Dec"
  end.

(** [d.toDateString()], e.g. ["Wed Jun 05 2024"], in the local zone. *)
Definition toDateString (tz : Z) (d : Date) : string :=
  match d with
  | None => "Invalid Date"
  | Some t =>
      let n := Day (LocalTime tz t) in
      let '(y, m, dd) := civil_from_days n in
      day_name (WeekDayOfDay n) ++ " " ++ month_name m ++ " " ++ pad 2 dd ++ " "
        ++ (if y <? 0 then "-" else "") ++ pad (year_width (Z.abs y)) (Z.abs y)
  end.

(** [d.toISOString()] of a valid date, e.g.
    ["2024-06-05T17:00:00.000Z"]: always UTC.  Years outside
    [0..9999] are written with a sign and six digits. *)
Definition toISOString (t : Z) : string :=
  let '(y, m, dd) := civil_from_days (Day t) in
  let ms := TimeWithinDay t in
  (if (0 <=? y) && (y <=? 9999) then pad 4 y
   else (if y <? 0 then "-" else "+") ++ pad 6 (Z.abs y))
    ++ "-" ++ pad 2 m ++ "-" ++ pad 2 dd
    ++ "T" ++ pad 2 (ms / 3600000) ++ ":" ++ pad 2 (ms / 60000 mod 60)
    ++ ":" ++ pad 2 (ms / 1000 mod 60) ++ "." ++ pad 3 (ms mod 1000) ++ "Z".

(** [s.slice(0, n)]. *)
Definition slice0 (n : nat) (s : string) : string := substring 0 n s.

(** *** Parsing a date-only string *)

Definition digits2 (a b : ascii) : option Z :=
  if is_digit a && is_digit b then Some (10 * digit_val a + digit_val b) else None.

(** [new Date(s)] for the date-only form [YYYY-MM-DD] of the date-time
    string format, which is read as midnight UTC.  Other forms are left
    to the implementation by the language and are modelled as invalid;
    a day of the month up to [31] is taken as a day count from the first
    of the month. *)
Definition new_Date_string (s : string) : Date :=
  match s with
  | String y1 (String y2 (String y3 (String y4 (String "-"%char
      (String m1 (String m2 (String "-"%char (String d1 (String d2 "")))))))))
    =>
      match digits2 y1 y2, digits2 y3 y4, digits2 m1 m2, digits2 d1 d2 with
      | Some yh, Some yl, Some m, Some dd =>
          if (1 <=? m) && (m <=? 12) && (1 <=? dd) && (dd <=? 31)
          then Some (MakeDay (100 * yh + yl) (m - 1) dd * msPerDay)
          else None
      | _, _, _, _ => None
      end
  | _ => None
  end.

End JSDate.

Import JSDate.

(* ===================================================================== *)
(** ** Plain objects used as maps *)
(* ===================================================================== *)

Module Obj.

(** Own properties in insertion order. *)
Definition t : Type := list (string * num).

Definition empty : t := [].

(** [o[k]]: [None] is [undefined]. *)
Fixpoint get (k : string) (o : t) : option num :=
  match o with
  | [] => None
  | (k', v) :: o' => if String.eqb k k' then Some v else get k o'
  end.

(** [o[k] = v]: an existing property keeps its place, a new one goes
    last. *)
Fixpoint set (k : string) (v : num) (o : t) : t :=
  match o with
  | [] => [(k, v)]
  | (k', v') :: o' =>
      if String.eqb k k' then (k', v) :: o' else (k', v') :: set k v o'
  end.

(** [Object.keys(o)] and [Object.values(o)]. *)
Definition keys (o : t) : list string := map fst o.
Definition values (o : t) : list num := map snd o.

(** ToBoolean of [o[k]]: [undefined], [0] and [NaN] are falsy. *)
Definition truthy_at (k : string) (o : t) : bool :=
  match get k o with
  | None => false
  | Some v => truthy v
  end.

(** [o[k] += a]; [undefined + a] is [NaN]. *)
Definition add_at (k : string) (a : num) (o : t) : t :=
  set k (match get k o with Some v => add v a | None => NaN end) o.

End Obj.

(* ===================================================================== *)
(** ** The expenses table *)
(* ===================================================================== *)

(** A row of [expenses]: [id INTEGER PRIMARY KEY AUTOINCREMENT],
    [amount REAL NOT NULL], [category TEXT NOT NULL], [note TEXT],
    [date TEXT NOT NULL]. *)
Module Expense.

Record t : Type := mk {
  id : Z;
  amount : num;
  category : string;
  note : option string;
  date : string
}.

End Expense.

Module Sql.

(** The statements the screen issues. *)
Inductive statement : Type :=
| CreateTable
| SelectAll
| Insert (amount : num) (category note date : string)
| Delete (id : Z)
| Update (amount : num) (category note date : string) (id : Z).

(** The table with the largest row id handed out so far. *)
Record table : Type := mkTable {
  rows : list Expense.t;
  seq : Z
}.

Definition max_id (l : list Expense.t) : Z :=
  fold_right (fun r m => Z.max (Expense.id r) m) 0 l.

(** AUTOINCREMENT: one more than the largest id that ever existed. *)
Definition next_id (tb : table) : Z := 1 + Z.max (seq tb) (max_id (rows tb)).

Definition insert (a : num) (c n d : string) (tb : table) : table :=
  let i := next_id tb in
  mkTable (rows tb ++ [Expense.mk i a c (Some n) d]) i.

Definition delete (i : Z) (tb : table) : table :=
  mkTable (filter (fun r => negb (Expense.id r =? i)) (rows tb)) (seq tb).

Definition update (a : num) (c n d : string) (i : Z) (tb : table) : table :=
  mkTable
    (map (fun r => if Expense.id r =? i then Expense.mk (Expense.id r) a c (Some n) d else r)
         (rows tb))
    (seq tb).

(** [ORDER BY id DESC]. *)
Fixpoint insert_desc (r : Expense.t) (l : list Expense.t) : list Expense.t :=
  match l with
  | [] => [r]
  | x :: l' => if Expense.id x <=? Expense.id r then r :: l else x :: insert_desc r l'
  end.

Definition order_by_id_desc (l : list Expense.t) : list Expense.t :=
  fold_right insert_desc [] l.

Definition select_all (tb : table) : list Expense.t := order_by_id_desc (rows tb).

(** [db.runAsync] and [db.execAsync] on a data statement. *)
Definition run (st : statement) (tb : table) : table :=
  match st with
  | CreateTable => tb
  | SelectAll => tb
  | Insert a c n d => insert a c n d tb
  | Delete i => delete i tb
  | Update a c n d i => update a c n d i tb
  end.

End Sql.

(* ===================================================================== *)
(** ** ExpenseScreen *)
(* ===================================================================== *)

(** The component's state variables. *)
Module State.

Record t : Type := mk {
  expenses : list Expense.t;
  amount : string;
  category : string;
  note : string;
  filter : string;
  editingExpense : option Expense.t
}.

Definition initial : t := mk [] "" "" "" "ALL" None.

End State.

(** The error conditions of the contract.  The screen raises none of
    them; they are here to state what the contract says. *)
Inductive Error : Type :=
| ValidationError
| StorageUnavailable
| NotFound.

(** How an asynchronous handler ends. *)
Inductive Outcome : Type :=
| Resolved
| Rejected (e : Error).

(** The database behind [db], the statements issued so far (oldest
    first), and the component state. *)
Record World : Type := mkWorld {
  table : Sql.table;
  issued : list Sql.statement;
  state : State.t
}.

Definition runAsync (st : Sql.statement) (w : World) : World :=
  mkWorld (Sql.run st (table w)) (issued w ++ [st]) (state w).

Definition setExpenses (l : list Expense.t) (w : World) : World :=
  let s := state w in
  mkWorld (table w) (issued w)
    (State.mk l (State.amount s) (State.category s) (State.note s)
       (State.filter s) (State.editingExpense s)).

Definition setAmount (v : string) (w : World) : World :=
  let s := state w in
  mkWorld (table w) (issued w)
    (State.mk (State.expenses s) v (State.category s) (State.note s)
       (State.filter s) (State.editingExpense s)).

Definition setCategory (v : string) (w : World) : World :=
  let s := state w in
  mkWorld (table w) (issued w)
    (State.mk (State.expenses s) (State.amount s) v (State.note s)
       (State.filter s) (State.editingExpense s)).

Definition setNote (v : string) (w : World) : World :=
  let s := state w in
  mkWorld (table w) (issued w)
    (State.mk (State.expenses s) (State.amount s) (State.category s) v
       (State.filter s) (State.editingExpense s)).

Definition setEditingExpense (v : option Expense.t) (w : World) : World :=
  let s := state w in
  mkWorld (table w) (issued w)
    (State.mk (State.expenses s) (State.amount s) (State.category s)
       (State.note s) (State.filter s) v).

(** [db.getAllAsync('SELECT * FROM expenses ORDER BY id DESC;')]. *)
Definition getAllAsync (w : World) : list Expense.t * World :=
  (Sql.select_all (table w),
   mkWorld (table w) (issued w ++ [Sql.SelectAll]) (state w)).

(** [loadExpenses]: read every row, newest id first, into the state. *)
Definition loadExpenses (w : World) : World :=
  let '(rows, w1) := getAllAsync w in
  setExpenses rows w1.

(** The effect run on mount: create the table if needed, then load. *)
Definition setup (w : World) : World :=
  loadExpenses
    (mkWorld (table w) (issued w ++ [Sql.CreateTable]) (state w)).

(** [addExpense], run when the clock reads [now]. *)
Definition addExpense (now : Z) (w : World) : Outcome * World :=
  let amountNumber := parseFloat (State.amount (state w)) in
  if isNaN amountNumber || le0 amountNumber then (Resolved, w)
  else
    let trimmedCategory := trim (State.category (state w)) in
    let trimmedNote := trim (State.note (state w)) in
    if is_empty trimmedCategory then (Resolved, w)
    else
      let today := slice0 10 (toISOString now) in
      let w1 := runAsync (Sql.Insert amountNumber trimmedCategory trimmedNote today) w in
      let w2 := setNote "" (setCategory "" (setAmount "" w1)) in
      (Resolved, loadExpenses w2).

(** [deleteExpense(id)]. *)
Definition deleteExpense (i : Z) (w : World) : Outcome * World :=
  (Resolved, loadExpenses (runAsync (Sql.Delete i) w)).

(** [x || ''] on a nullable string. *)
Definition or_empty (x : option string) : string :=
  match x with
  | Some s => s
  | None => ""
  end.

(** [handleSaveEdit]. *)
Definition handleSaveEdit (w : World) : Outcome * World :=
  match State.editingExpense (state w) with
  | None => (Resolved, w)
  | Some e =>
      let w1 :=
        runAsync
          (Sql.Update (Expense.amount e) (Expense.category e) (or_empty (Expense.note e))
             (Expense.date e) (Expense.id e)) w in
      (Resolved, setEditingExpense None (loadExpenses w1))
  end.

(** *** Date helpers for the filters *)

Section Clock.

(** The zone offset of the device and the reading of the clock. *)
Variables (tz now : Z).

Definition isSameMonth (dateStr : string) : bool :=
  let d := new_Date_string dateStr in
  let n : Date := Some now in
  inum_strict_eq (getFullYear tz d) (getFullYear tz n)
  && inum_strict_eq (getMonth tz d) (getMonth tz n).

Definition getWeekStart (date : Date) : Date :=
  let day := getDay tz date in
  let diff :=
    inum_add (inum_sub (getDate tz date) day)
      (if inum_strict_eq day (Some 0) then Some (-6) else Some 1) in
  new_Date_ymd tz (getFullYear tz date) (getMonth tz date) diff.

Definition isSameWeek (dateStr : string) : bool :=
  let d := new_Date_string dateStr in
  let n : Date := Some now in
  String.eqb (toDateString tz (getWeekStart d)) (toDateString tz (getWeekStart n)).

(** [filteredExpenses] as a function of the state it is computed
    from. *)
Definition filteredExpenses (expenses : list Expense.t) (filter : string) : list Expense.t :=
  if String.eqb filter "ALL" then expenses
  else if String.eqb filter "WEEK" then
    List.filter (fun e => isSameWeek (Expense.date e)) expenses
  else if String.eqb filter "MONTH" then
    List.filter (fun e => isSameMonth (Expense.date e)) expenses
  else expenses.

End Clock.

(** *** Totals *)

(** [totalSpending]: [reduce((sum, e) => sum + e.amount, 0)]. *)
Definition totalSpending (filteredExpenses : list Expense.t) : num :=
  fold_left (fun sum e => add sum (Expense.amount e)) filteredExpenses zero.

(** One round of the [forEach] of [totalsByCategory]. *)
Definition totals_step (map : Obj.t) (e : Expense.t) : Obj.t :=
  let map1 :=
    if negb (Obj.truthy_at (Expense.category e) map)
    then Obj.set (Expense.category e) zero map else map in
  Obj.add_at (Expense.category e) (Expense.amount e) map1.

Definition totalsByCategory (filteredExpenses : list Expense.t) : Obj.t :=
  fold_left totals_step filteredExpenses Obj.empty.

(** [x || 'Other'] on a string. *)
Definition or_Other (x : string) : string :=
  if is_empty x then "Other" else x.

(** [Number(x) || 0] on a number. *)
Definition or_zero (x : num) : num :=
  if truthy x then x else zero.

(** One round of the [forEach] of [getChartData]. *)
Definition chart_step (totals : Obj.t) (expense : Expense.t) : Obj.t :=
  let category := or_Other (Expense.category expense) in
  let amount := or_zero (Expense.amount expense) in
  let totals1 :=
    if negb (Obj.truthy_at category totals)
    then Obj.set category zero totals else totals in
  Obj.add_at category amount totals1.

(** [getChartData]: the pair [(labels, values)]. *)
Definition getChartData (expenses : list Expense.t) : list string * list num :=
  let totals := fold_left chart_step expenses Obj.empty in
  (Obj.keys totals, Obj.values totals).

(* ===================================================================== *)
(** ** Vocabulary of the statements *)
(* ===================================================================== *)

(** [l1] is [l2] with some elements left out, the others in place. *)
Inductive Subseq {A : Type} : list A -> list A -> Prop :=
| Subseq_nil : Subseq [] []
| Subseq_skip : forall x l1 l2, Subseq l1 l2 -> Subseq l1 (x :: l2)
| Subseq_keep : forall x l1 l2, Subseq l1 l2 -> Subseq (x :: l1) (x :: l2).

(** [a] stands before [b] in descending id order. *)
Definition newer (a b : Expense.t) : Prop := Expense.id b <= Expense.id a.


(** The sum of a list of numbers, from zero. *)
Definition sum (l : list num) : num := fold_left add l zero.

(** The input of [addExpense] that the contract calls invalid: the
    amount does not read as a finite number above zero, or the category
    is empty once trimmed. *)
Definition spec_invalid_input (amount category : string) : Prop :=
  ~ (exists q : Qc, parseFloat amount = Fin q /\ (Q2Qc 0 < q)%Qc)
  \/ trim category = "".

(** The input the guards of [addExpense] turn away. *)
Definition guarded_input (amount category : string) : Prop :=
  parseFloat amount = NaN
  \/ le0 (parseFloat amount) = true
  \/ trim category = "".


(** The calendar date [YYYY-MM-DD] of a day number (years [0..9999]). *)
Definition date_string (n : Z) : string :=
  let '(y, m, d) := civil_from_days n in
  pad 4 y ++ "-" ++ pad 2 m ++ "-" ++ pad 2 d.

(** The calendar date in the local zone at the instant [t]. *)
Definition local_date (tz t : Z) : string := date_string (Day (LocalTime tz t)).

(** The calendar date in UTC at the instant [t]. *)
Definition utc_date (t : Z) : string := date_string (Day t).

(** Written from the contract: the Monday on or before day [n]; a
    Sunday goes back six days, another day [weekday - 1] days with
    Monday counted as [1]. *)
Definition spec_weekStart (n : Z) : Z :=
  let wd := WeekDayOfDay n in
  if wd =? 0 then n - 6 else n - (wd - 1).

(** Written from the contract: two calendar days are in the same week
    when their week starts are the same day. *)
Definition spec_isSameWeek (d n : Z) : bool :=
  spec_weekStart d =? spec_weekStart n.

(** Written from the contract: same year and same month. *)
Definition spec_isSameMonth (d n : Z) : bool :=
  let '(y1, m1, _) := civil_from_days d in
  let '(y2, m2, _) := civil_from_days n in
  (y1 =? y2) && (m1 =? m2).



(** The instant [h]:[mi] UTC on the day [y]-[m]-[d]. *)
Definition instant (y m d h mi : Z) : Z :=
  days_from_civil y m d * msPerDay + h * 3600000 + mi * msPerMinute.




(** A form holding the given inputs over an empty table. *)
Definition form (amount category note : string) : World :=
  mkWorld (Sql.mkTable [] 0) [] (State.mk [] amount category note "ALL" None).

(** The row [addExpense] inserts when the clock reads [now]. *)
Definition created_row (now : Z) (w : World) : Expense.t :=
  Expense.mk (Sql.next_id (table w))
    (parseFloat (State.amount (state w)))
    (trim (State.category (state w)))
    (Some (trim (State.note (state w))))
    (slice0 10 (toISOString now)).

(** The three records of the contract's scenario, newest first. *)
Definition scenario : list Expense.t :=
  [Expense.mk 3 (of_Z 20) "Books" None "2024-06-05";
   Expense.mk 2 (of_Z 5) "Food" (Some "") "2024-06-04";
   Expense.mk 1 (of_Z 10) "Food" (Some "lunch") "2024-06-03"].

(** A table of two rows with the older one under edit, its amount
    changed and its note missing. *)
Definition editing : World :=
  mkWorld
    (Sql.mkTable
       [Expense.mk 1 (of_Z 10) "Food" None "2024-06-03";
        Expense.mk 2 (of_Z 20) "Books" (Some "pens") "2024-06-04"] 2)
    []
    (State.mk
       [Expense.mk 2 (of_Z 20) "Books" (Some "pens") "2024-06-04";
        Expense.mk 1 (of_Z 10) "Food" None "2024-06-03"]
       "" "" "" "ALL"
       (Some (Expense.mk 1 (of_Z 12) "Food" None "2024-06-03"))).

(** The contract on invalid input, as C1 words it: the call signals
    [ValidationError] and leaves everything as it was. *)
Definition create_rejects_invalid (now : Z) (w : World) : Prop :=
  spec_invalid_input (State.amount (state w)) (State.category (state w)) ->
  addExpense now w = (Rejected ValidationError, w).

(** Its part about the state alone. *)
Definition create_ignores_invalid (now : Z) (w : World) : Prop :=
  spec_invalid_input (State.amount (state w)) (State.category (state w)) ->
  snd (addExpense now w) = w.



(* ===================================================================== *)
(** ** Number(text), for the edit panel *)
(* ===================================================================== *)

Module StrNumber.

(** The value of a digit in the given radix, letters in either case. *)
Definition radix_digit (radix : Z) (c : ascii) : option Z :=
  let n := code c in
  let v :=
    if (48 <=? n) && (n <=? 57) then n - 48
    else if (97 <=? n) && (n <=? 102) then n - 87
    else if (65 <=? n) && (n <=? 70) then n - 55
    else radix in
  if v <? radix then Some v else None.

(** The value of a string made of digits of the radix only, at least
    one. *)
Fixpoint all_radix (radix : Z) (s : string) (acc : Z) (seen : bool) : option Z :=
  match s with
  | EmptyString => if seen then Some acc else None
  | String c r =>
      match radix_digit radix c with
      | Some v => all_radix radix r (radix * acc + v) true
      | None => None
      end
  end.

(** NonDecimalIntegerLiteral: [0x], [0o] or [0b] in either case, then
    digits to the end; [None] when the string has no such prefix. *)
Definition non_decimal (t : string) : option num :=
  match t with
  | String "0"%char (String c r) =>
      let n := code c in
      let radix :=
        if (n =? 120) || (n =? 88) then 16
        else if (n =? 111) || (n =? 79) then 8
        else if (n =? 98) || (n =? 66) then 2
        else 0 in
      if radix =? 0 then None
      else Some (match all_radix radix r 0 false with
                 | Some v => of_Z v
                 | None => NaN
                 end)
  | _ => None
  end.

(** ExponentPart with what follows it; the input itself follows when it
    does not start with an exponent. *)
Definition exponent_rest (s : string) : Z * string :=
  match s with
  | String c r =>
      if (code c =? 101) || (code c =? 69) then
        let '(neg, r1) :=
          match r with
          | String "-"%char r' => (true, r')
          | String "+"%char r' => (false, r')
          | _ => (false, r)
          end in
        let '(e, n, r2) := span_digits r1 0 0 in
        if n =? 0 then (0, s) else (if neg then - e else e, r2)
      else (0, s)
  | EmptyString => (0, s)
  end.

(** StrUnsignedDecimalLiteral without [Infinity], with what follows
    it. *)
Definition unsigned_decimal_rest (s : string) : option (Qc * string) :=
  let '(ip, ni, r1) := span_digits s 0 0 in
  let '(fp, nf, r2) :=
    match r1 with
    | String "."%char r' => span_digits r' 0 0
    | _ => (0, 0, r1)
    end in
  if (ni =? 0) && (nf =? 0) then None
  else
    let m := ip * 10 ^ nf + fp in
    let '(e, r3) := exponent_rest r2 in
    Some (scale10 m (e - nf), r3).

(** [Number(s)] on a string: white space is trimmed at both ends, the
    empty string is [0], and the whole of what is left must be a
    numeric literal; [NaN] otherwise. *)
Definition Number (s : string) : num :=
  let t := trim s in
  if is_empty t then zero
  else
    match non_decimal t with
    | Some v => v
    | None =>
        let '(neg, u) :=
          match t with
          | String "-"%char r => (true, r)
          | String "+"%char r => (false, r)
          | _ => (false, t)
          end in
        if String.eqb u "Infinity" then (if neg then NInf else PInf)
        else
          match unsigned_decimal_rest u with
          | Some (q, EmptyString) => Fin (if neg then (- q)%Qc else q)
          | _ => NaN
          end
    end.

End StrNumber.

Import StrNumber.

(* ===================================================================== *)
(** ** The screen as a machine: what the user can do *)
(* ===================================================================== *)

(** [setFilter(mode)]. *)
Definition setFilter (v : string) (w : World) : World :=
  let s := state w in
  mkWorld (table w) (issued w)
    (State.mk (State.expenses s) (State.amount s) (State.category s)
       (State.note s) v (State.editingExpense s)).

(** The three [onChangeText] handlers of the edit panel, which is
    rendered only while an expense is being edited:
    [{...editingExpense, amount: Number(text)}],
    [{...editingExpense, category: text}] and
    [{...editingExpense, note: text}]. *)
Definition editAmount (text : string) (w : World) : World :=
  match State.editingExpense (state w) with
  | Some e =>
      setEditingExpense
        (Some (Expense.mk (Expense.id e) (Number text) (Expense.category e)
                 (Expense.note e) (Expense.date e))) w
  | None => w
  end.

Definition editCategory (text : string) (w : World) : World :=
  match State.editingExpense (state w) with
  | Some e =>
      setEditingExpense
        (Some (Expense.mk (Expense.id e) (Expense.amount e) text
                 (Expense.note e) (Expense.date e))) w
  | None => w
  end.

Definition editNote (text : string) (w : World) : World :=
  match State.editingExpense (state w) with
  | Some e =>
      setEditingExpense
        (Some (Expense.mk (Expense.id e) (Expense.amount e) (Expense.category e)
                 (Some text) (Expense.date e))) w
  | None => w
  end.

(** What the user does.  A row of the list is named by its place among
    the records in memory: the list shows those that pass the filter,
    and its Edit and Delete act on the row shown. *)
Inductive Event : Type :=
| TypeAmount (text : string)
| TypeCategory (text : string)
| TypeNote (text : string)
| PressAdd (now : Z)
| PressFilter (mode : string)
| PressEdit (k : nat)
| PressDelete (k : nat)
| EditAmount (text : string)
| EditCategory (text : string)
| EditNote (text : string)
| PressSave
| PressCancel.

(** The handler an event runs. *)
Definition handle (ev : Event) (w : World) : World :=
  match ev with
  | TypeAmount t => setAmount t w
  | TypeCategory t => setCategory t w
  | TypeNote t => setNote t w
  | PressAdd now => snd (addExpense now w)
  | PressFilter m => setFilter m w
  | PressEdit k =>
      match nth_error (State.expenses (state w)) k with
      | Some item => setEditingExpense (Some item) w
      | None => w
      end
  | PressDelete k =>
      match nth_error (State.expenses (state w)) k with
      | Some item => snd (deleteExpense (Expense.id item) w)
      | None => w
      end
  | EditAmount t => editAmount t w
  | EditCategory t => editCategory t w
  | EditNote t => editNote t w
  | PressSave => snd (handleSaveEdit w)
  | PressCancel => setEditingExpense None w
  end.

(** A session: the events in the order they happen. *)
Definition session (evs : list Event) (w : World) : World :=
  fold_left (fun w ev => handle ev w) evs w.

(** The screen as mounted over a table: the initial state, then the
    mount effect. *)
Definition mount (tb : Sql.table) : World :=
  setup (mkWorld tb [] State.initial).

(** ** Vocabulary of the further statements *)

(** Every id is in use once and is at most the counter of the table. *)
Definition table_ok (tb : Sql.table) : Prop :=
  NoDup (map Expense.id (Sql.rows tb))
  /\ Forall (fun r => Expense.id r <= Sql.seq tb) (Sql.rows tb).

(** The records in memory are the table as a load reads it. *)
Definition in_sync (w : World) : Prop :=
  State.expenses (state w) = Sql.select_all (table w).

(** The expense under edit, if any, has an id the table has handed out,
    and the date of the row with that id if there is one. *)
Definition edit_ok (w : World) : Prop :=
  forall e, State.editingExpense (state w) = Some e ->
    Expense.id e <= Sql.seq (table w)
    /\ forall r, In r (Sql.rows (table w)) ->
         Expense.id r = Expense.id e -> Expense.date r = Expense.date e.

(** What the guards of [addExpense] let into a row. *)
Definition passed_guards (r : Expense.t) : Prop :=
  isNaN (Expense.amount r) = false
  /\ le0 (Expense.amount r) = false
  /\ Expense.category r <> ""
  /\ trim (Expense.category r) = Expense.category r.

(** The events other than saving an edit. *)
Definition not_save (ev : Event) : Prop :=
  match ev with PressSave => False | _ => True end.

(** What a session must keep: unique ids, memory in line with the
    table, and an edit that agrees with the table. *)
Definition screen_ok (w : World) : Prop :=
  table_ok (table w) /\ in_sync w /\ edit_ok w.

(** Every row of [tb'] has the id and the date of a row of [tb], or an
    id handed out after [tb]. *)
Definition dates_kept (tb tb' : Sql.table) : Prop :=
  forall r', In r' (Sql.rows tb') ->
    (exists r, In r (Sql.rows tb)
               /\ Expense.id r = Expense.id r' /\ Expense.date r = Expense.date r')
    \/ Sql.seq tb < Expense.id r'.


(** The table after a run of statements. *)
Definition run_all (sts : list Sql.statement) (tb : Sql.table) : Sql.table :=
  fold_left (fun t st => Sql.run st t) sts tb.


(* ===================================================================== *)
(** * Checks of the run-time model *)
(* ===================================================================== *)

Example parseFloat_12_50 : eqb (parseFloat "12.50") (Fin (Q2Qc (25 # 2))) = true.
Proof. vm_compute. reflexivity. Qed.

Example parseFloat_junk : parseFloat "abc" = NaN.
Proof. reflexivity. Qed.

Example parseFloat_inf : parseFloat "  Infinity" = PInf.
Proof. reflexivity. Qed.

Example parseFloat_exp : eqb (parseFloat "-1.5e2xyz") (of_Z (-150)) = true.
Proof. vm_compute. reflexivity. Qed.

Example parseFloat_dot : parseFloat "." = NaN /\ eqb (parseFloat ".5") (Fin (Q2Qc (1 # 2))) = true
  /\ eqb (parseFloat "5.") (of_Z 5) = true /\ eqb (parseFloat "1e") (of_Z 1) = true.
Proof. vm_compute. repeat split. Qed.

Example trim_ex : trim "  Food " = "Food" /\ trim "   " = "" /\ trim " a b " = "a b".
Proof. repeat split. Qed.

Example civil_epoch : civil_from_days 0 = (1970, 1, 1) /\ WeekDayOfDay 0 = 4.
Proof. split; reflexivity. Qed.

Example civil_2024_06_03 :
  days_from_civil 2024 6 3 = 19877 /\ civil_from_days 19877 = (2024, 6, 3)
  /\ WeekDayOfDay 19877 = 1.
Proof. repeat split. Qed.

Example civil_leap : civil_from_days (days_from_civil 2024 2 29) = (2024, 2, 29)
  /\ civil_from_days (days_from_civil 2023 2 28 + 1) = (2023, 3, 1)
  /\ civil_from_days (days_from_civil 1900 2 28 + 1) = (1900, 3, 1)
  /\ civil_from_days (days_from_civil 2000 2 28 + 1) = (2000, 2, 29)
  /\ civil_from_days (-1) = (1969, 12, 31).
Proof. repeat split. Qed.

Example iso_ex : toISOString 1717606800123 = "2024-06-05T17:00:00.123Z".
Proof. reflexivity. Qed.

Example date_string_ex : toDateString (-300) (Some 1717606800123) = "Wed Jun 05 2024".
Proof. reflexivity. Qed.

Example parse_ex : new_Date_string "2024-06-03" = Some (19877 * msPerDay)
  /\ new_Date_string "2024-6-3" = None /\ new_Date_string "junk" = None.
Proof. repeat split. Qed.

(* ===================================================================== *)
(** * The filter *)
(* ===================================================================== *)

Section Filter.

Variables (tz now : Z).

Lemma Subseq_refl {A : Type} (l : list A) : Subseq l l.
Proof. induction l as [|x l IH]; constructor; exact IH. Qed.

Lemma Subseq_filter {A : Type} (p : A -> bool) (l : list A) :
  Subseq (List.filter p l) l.
Proof.
  induction l as [|x l IH]; simpl.
  - constructor.
  - destruct (p x); constructor; exact IH.
Qed.

Lemma Subseq_In {A : Type} (l1 l2 : list A) :
  Subseq l1 l2 -> forall x, In x l1 -> In x l2.
Proof.
  induction 1 as [|y l1 l2 _ IH|y l1 l2 _ IH]; intros x Hx; simpl in *.
  - exact Hx.
  - right. apply IH. exact Hx.
  - destruct Hx as [->|Hx]; [left; reflexivity|right; apply IH; exact Hx].
Qed.

Lemma Subseq_length {A : Type} (l1 l2 : list A) :
  Subseq l1 l2 -> (List.length l1 <= List.length l2)%nat.
Proof. induction 1; simpl; lia. Qed.

Lemma Subseq_NoDup {A : Type} (l1 l2 : list A) :
  Subseq l1 l2 -> NoDup l2 -> NoDup l1.
Proof.
  induction 1 as [|y l1 l2 H IH|y l1 l2 H IH]; intros Hnd.
  - constructor.
  - inversion Hnd; subst. apply IH. assumption.
  - inversion Hnd as [|? ? Hy Hl]; subst. constructor.
    + intro Hin. apply Hy. eapply Subseq_In; eassumption.
    + apply IH. exact Hl.
Qed.

(** C7.  Under the mode ['ALL'] the filter returns the records it was
    given, and so it does under any mode other than ['ALL'], ['WEEK']
    and ['MONTH']. *)
Theorem filter_all_and_unknown_mode_identity :
  forall records : list Expense.t,
    filteredExpenses tz now records "ALL" = records
    /\ forall mode : string,
         mode <> "ALL" -> mode <> "WEEK" -> mode <> "MONTH" ->
         filteredExpenses tz now records mode = records.
Proof.
  intro records. split.
  - reflexivity.
  - intros mode Ha Hw Hm. unfold filteredExpenses.
    apply String.eqb_neq in Ha, Hw, Hm.
    rewrite Ha, Hw, Hm. reflexivity.
Qed.

Lemma Subseq_Forall {A : Type} (P : A -> Prop) (l1 l2 : list A) :
  Subseq l1 l2 -> Forall P l2 -> Forall P l1.
Proof.
  intros H HP. apply Forall_forall. intros x Hx.
  rewrite Forall_forall in HP. apply HP. eapply Subseq_In; eassumption.
Qed.

Lemma Subseq_StronglySorted {A : Type} (R : A -> A -> Prop) (l1 l2 : list A) :
  Subseq l1 l2 -> StronglySorted R l2 -> StronglySorted R l1.
Proof.
  induction 1 as [|y l1 l2 H IH|y l1 l2 H IH]; intro Hs.
  - constructor.
  - inversion Hs; subst. apply IH. assumption.
  - inversion Hs as [|? ? Hl Hy]; subst. constructor.
    + apply IH. exact Hl.
    + eapply Subseq_Forall; eassumption.
Qed.

Lemma filteredExpenses_Subseq (records : list Expense.t) (mode : string) :
  Subseq (filteredExpenses tz now records mode) records.
Proof.
  unfold filteredExpenses.
  destruct (String.eqb mode "ALL"); [apply Subseq_refl|].
  destruct (String.eqb mode "WEEK"); [apply Subseq_filter|].
  destruct (String.eqb mode "MONTH"); [apply Subseq_filter|].
  apply Subseq_refl.
Qed.

(** Records in descending id order stay in that order. *)
Lemma filteredExpenses_descending (records : list Expense.t) (mode : string) :
  StronglySorted newer records ->
  StronglySorted newer (filteredExpenses tz now records mode).
Proof. apply Subseq_StronglySorted. apply filteredExpenses_Subseq. Qed.

(** C10.  Whatever the mode, the filter returns a subsequence of the
    records: the records kept are records of the input, unchanged and
    in their order, none more often than in the input. *)
Theorem filter_returns_subsequence :
  forall (records : list Expense.t) (mode : string),
    let out := filteredExpenses tz now records mode in
    Subseq out records
    /\ (forall r, In r out -> In r records)
    /\ (List.length out <= List.length records)%nat.
Proof.
  intros records mode out.
  pose proof (filteredExpenses_Subseq records mode) as H. fold out in H.
  split; [exact H|]. split.
  - apply Subseq_In. exact H.
  - apply Subseq_length. exact H.
Qed.

End Filter.

(** The identity under an unknown mode, at the mode ['YEAR']. *)
Lemma filter_all_and_unknown_mode_identity_witness :
  filteredExpenses 0 0 [Expense.mk 1 zero "Food" None "2024-06-03"] "YEAR"
  = [Expense.mk 1 zero "Food" None "2024-06-03"].
Proof.
  apply (filter_all_and_unknown_mode_identity 0 0
           [Expense.mk 1 zero "Food" None "2024-06-03"]); discriminate.
Defined.

(* ===================================================================== *)
(** * The table: ordering and fresh ids *)
(* ===================================================================== *)

Module SqlFacts.

Import Sql.

Lemma max_id_bound (l : list Expense.t) :
  forall x, In x l -> Expense.id x <= max_id l.
Proof.
  induction l as [|a l IH]; simpl; intros x Hx.
  - contradiction.
  - destruct Hx as [->|Hx]; [lia|]. specialize (IH x Hx). lia.
Qed.

Lemma next_id_fresh (tb : table) :
  forall x, In x (rows tb) -> Expense.id x < next_id tb.
Proof.
  intros x Hx. unfold next_id. pose proof (max_id_bound _ _ Hx). lia.
Qed.


Lemma insert_desc_map (f : Expense.t -> Expense.t) (r : Expense.t) (l : list Expense.t) :
  (forall x, Expense.id (f x) = Expense.id x) ->
  insert_desc (f r) (map f l) = map f (insert_desc r l).
Proof.
  intro Hid. induction l as [|a l IH]; simpl.
  - reflexivity.
  - rewrite !Hid. destruct (Expense.id a <=? Expense.id r); simpl.
    + reflexivity.
    + rewrite IH. reflexivity.
Qed.

Lemma order_map (f : Expense.t -> Expense.t) (l : list Expense.t) :
  (forall x, Expense.id (f x) = Expense.id x) ->
  order_by_id_desc (map f l) = map f (order_by_id_desc l).
Proof.
  intro Hid. induction l as [|a l IH]; simpl.
  - reflexivity.
  - fold (order_by_id_desc (map f l)). fold (order_by_id_desc l).
    rewrite IH. apply insert_desc_map. exact Hid.
Qed.

Lemma insert_desc_Forall (P : Expense.t -> Prop) (r : Expense.t) (l : list Expense.t) :
  P r -> Forall P l -> Forall P (insert_desc r l).
Proof.
  intros Hr Hl. induction Hl as [|x l Hx Hl IH]; simpl.
  - constructor; [exact Hr|constructor].
  - destruct (Expense.id x <=? Expense.id r); repeat constructor; assumption.
Qed.

Lemma insert_desc_sorted (r : Expense.t) (l : list Expense.t) :
  StronglySorted newer l -> StronglySorted newer (insert_desc r l).
Proof.
  induction 1 as [|x l Hs IH Hx]; simpl.
  - constructor; constructor.
  - destruct (Expense.id x <=? Expense.id r) eqn:E.
    + apply Z.leb_le in E. constructor; [constructor; assumption|].
      constructor; [exact E|].
      eapply Forall_impl; [|exact Hx]. intros a Ha. unfold newer in *. lia.
    + apply Z.leb_gt in E. constructor; [exact IH|].
      apply insert_desc_Forall; [unfold newer; lia|exact Hx].
Qed.

(** [loadExpenses] reads the rows in descending id order. *)
Lemma select_all_descending (tb : table) : StronglySorted newer (select_all tb).
Proof.
  unfold select_all, order_by_id_desc.
  induction (rows tb) as [|r l IH]; simpl; [constructor|].
  apply insert_desc_sorted. exact IH.
Qed.

End SqlFacts.

(* ===================================================================== *)
(** * Creating an expense *)
(* ===================================================================== *)

Lemma le0_Fin (q : Qc) : le0 (Fin q) = true <-> ~ (Q2Qc 0 < q)%Qc.
Proof.
  simpl. split.
  - intros H Hlt.
    assert (Hgt : (q ?= Q2Qc 0)%Qc = Gt).
    { unfold Qccompare. apply -> Qgt_alt. exact Hlt. }
    rewrite Hgt in H. discriminate.
  - intro Hn. destruct (q ?= Q2Qc 0)%Qc eqn:E; try reflexivity.
    exfalso. apply Hn. unfold Qccompare in E. apply <- Qgt_alt in E. exact E.
Qed.

(** The inputs the guards turn away are invalid for the contract; the
    invalid inputs the guards let through are those whose amount reads
    as [+Infinity]. *)
Lemma spec_invalid_input_split (amount category : string) :
  spec_invalid_input amount category
  <-> guarded_input amount category
      \/ (parseFloat amount = PInf /\ trim category <> "").
Proof.
  unfold spec_invalid_input, guarded_input. split.
  - intros [Hn|Hc]; [|left; right; right; exact Hc].
    destruct (string_dec (trim category) "") as [Hc|Hc];
      [left; right; right; exact Hc|].
    destruct (parseFloat amount) as [| | |q] eqn:E.
    + left; left; reflexivity.
    + right; split; [reflexivity|exact Hc].
    + left; right; left; reflexivity.
    + left; right; left. apply le0_Fin. intro Hq. apply Hn. exists q. split; [reflexivity|exact Hq].
  - intros [[Hn|[Hl|Hc]]|[Hp _]].
    + left. intros [q [Hq _]]. rewrite Hn in Hq. discriminate.
    + left. intros [q [Hq Hpos]]. rewrite Hq in Hl. apply le0_Fin in Hl. contradiction.
    + right. exact Hc.
    + left. intros [q [Hq _]]. rewrite Hp in Hq. discriminate.
Qed.

Lemma is_empty_true (s : string) : is_empty s = true <-> s = "".
Proof. destruct s; simpl; split; intro H; try reflexivity; discriminate. Qed.

(** C1, as the code has it.  When the amount reads as [NaN] or as a
    number that is at most zero, or the category is empty once trimmed,
    [addExpense] returns without raising anything and changes nothing:
    no statement is issued, the table and the records in memory are as
    before. *)
Theorem addExpense_guarded_input_is_silent_noop :
  forall (now : Z) (w : World),
    guarded_input (State.amount (state w)) (State.category (state w)) ->
    addExpense now w = (Resolved, w)
    /\ issued (snd (addExpense now w)) = issued w
    /\ table (snd (addExpense now w)) = table w
    /\ State.expenses (state (snd (addExpense now w))) = State.expenses (state w).
Proof.
  intros now w H.
  assert (E : addExpense now w = (Resolved, w)).
  { unfold addExpense. destruct H as [Hn|[Hl|Hc]].
    - rewrite Hn. reflexivity.
    - rewrite Hl, orb_true_r. reflexivity.
    - destruct (isNaN _ || le0 _); [reflexivity|].
      rewrite Hc. reflexivity. }
  rewrite E. repeat split.
Qed.

(** The no-op at the amount ["-1"]. *)
Lemma addExpense_guarded_input_is_silent_noop_witness :
  addExpense 0 (form "-1" "Food" "") = (Resolved, form "-1" "Food" "")
  /\ issued (snd (addExpense 0 (form "-1" "Food" ""))) = []
  /\ table (snd (addExpense 0 (form "-1" "Food" ""))) = Sql.mkTable [] 0
  /\ State.expenses (state (snd (addExpense 0 (form "-1" "Food" "")))) = [].
Proof.
  apply (addExpense_guarded_input_is_silent_noop 0 (form "-1" "Food" "")).
  right; left. vm_compute. reflexivity.
Defined.

(** C1 does not hold as worded.  At the amount ["-1"] the call returns
    normally: nothing is signalled.  At the amount ["Infinity"], which
    is not a finite number, a row is inserted. *)
Lemma create_rejects_invalid_counterexample :
  ~ create_rejects_invalid 0 (form "-1" "Food" "")
  /\ ~ create_ignores_invalid 0 (form "Infinity" "Food" "").
Proof.
  split; intro H.
  - assert (Hinv : spec_invalid_input "-1" "Food").
    { apply spec_invalid_input_split. left. right; left. vm_compute. reflexivity. }
    specialize (H Hinv).
    rewrite (proj1 (addExpense_guarded_input_is_silent_noop 0 (form "-1" "Food" "")
                      (or_intror (or_introl eq_refl)))) in H.
    discriminate.
  - assert (Hinv : spec_invalid_input "Infinity" "Food").
    { apply spec_invalid_input_split. right. split; [reflexivity|discriminate]. }
    specialize (H Hinv).
    apply (f_equal issued) in H. vm_compute in H. discriminate.
Qed.

Lemma addExpense_accepts (now : Z) (w : World) :
  isNaN (parseFloat (State.amount (state w))) = false ->
  le0 (parseFloat (State.amount (state w))) = false ->
  trim (State.category (state w)) <> "" ->
  addExpense now w =
    (Resolved,
     loadExpenses
       (setNote "" (setCategory "" (setAmount ""
          (runAsync
             (Sql.Insert (parseFloat (State.amount (state w)))
                (trim (State.category (state w)))
                (trim (State.note (state w)))
                (slice0 10 (toISOString now))) w))))).
Proof.
  intros Hn Hl Hc. unfold addExpense. rewrite Hn, Hl. simpl.
  destruct (is_empty (trim (State.category (state w)))) eqn:E.
  - apply is_empty_true in E. contradiction.
  - reflexivity.
Qed.




(* ===================================================================== *)
(** * Editing an expense *)
(* ===================================================================== *)




(* ===================================================================== *)
(** * Objects used as maps: keys and sums *)
(* ===================================================================== *)

Module ObjFacts.

Import Obj.












End ObjFacts.

(* ===================================================================== *)
(** * Totals *)
(* ===================================================================== *)

Module Totals.

Import Obj ObjFacts.











End Totals.


Example scenario_totals :
  eqb (totalSpending scenario) (of_Z 35) = true
  /\ Obj.keys (totalsByCategory scenario) = ["Books"; "Food"]
  /\ map (eqb (of_Z 20)) (firstn 1 (Obj.values (totalsByCategory scenario))) = [true]
  /\ map (eqb (of_Z 15)) (skipn 1 (Obj.values (totalsByCategory scenario))) = [true].
Proof. vm_compute. repeat split. Qed.

(* ===================================================================== *)
(** * The chart series *)
(* ===================================================================== *)

Module Chart.

Import Obj ObjFacts Totals.








End Chart.


Example chart_other :
  fst (getChartData
         [Expense.mk 2 (of_Z 5) "" None "2024-06-04"; Expense.mk 1 (of_Z 10) "Food" None "2024-06-03"])
  = ["Other"; "Food"]
  /\ Obj.keys (totalsByCategory
         [Expense.mk 2 (of_Z 5) "" None "2024-06-04"; Expense.mk 1 (of_Z 10) "Food" None "2024-06-03"])
     = [""; "Food"].
Proof. split; reflexivity. Qed.

(* ===================================================================== *)
(** * Dates: what is stored and how it is classified *)
(* ===================================================================== *)

Module Dates.

Lemma length_append (a b : string) :
  String.length (a ++ b) = (String.length a + String.length b)%nat.
Proof. induction a as [|c a IH]; simpl; [reflexivity|rewrite IH; reflexivity]. Qed.

Lemma length_pad (w : nat) (n : Z) : String.length (pad w n) = w.
Proof.
  revert n. induction w as [|w IH]; intro n; simpl; [reflexivity|].
  rewrite length_append, IH. simpl. lia.
Qed.

Lemma append_assoc (a b c : string) : ((a ++ b) ++ c = a ++ (b ++ c))%string.
Proof. induction a as [|x a IH]; simpl; [reflexivity|rewrite IH; reflexivity]. Qed.

Lemma substring_prefix (a b : string) :
  substring 0 (String.length a) (a ++ b) = a.
Proof.
  induction a as [|c a IH]; simpl.
  - destruct b; reflexivity.
  - rewrite IH. reflexivity.
Qed.

(** In the years [0..9999] the first ten characters of the ISO
    rendering are the calendar date in UTC. *)
Lemma iso_date_is_utc_date (t : Z) :
  (let '(y, _, _) := civil_from_days (Day t) in 0 <= y <= 9999) ->
  slice0 10 (toISOString t) = utc_date t.
Proof.
  unfold toISOString, utc_date, date_string, slice0.
  destruct (civil_from_days (Day t)) as [[y m] d]. intro Hy.
  assert (E : (0 <=? y) && (y <=? 9999) = true).
  { apply andb_true_iff. split; apply Z.leb_le; lia. }
  rewrite E.
  set (tail := ("T" ++ _)%string).
  assert (Hs : (pad 4 y ++ "-" ++ pad 2 m ++ "-" ++ pad 2 d ++ tail
                = (pad 4 y ++ "-" ++ pad 2 m ++ "-" ++ pad 2 d) ++ tail)%string).
  { rewrite !append_assoc. simpl. rewrite ?append_assoc. reflexivity. }
  rewrite Hs.
  assert (Hl : String.length (pad 4 y ++ "-" ++ pad 2 m ++ "-" ++ pad 2 d) = 10%nat).
  { rewrite !length_append, !length_pad. reflexivity. }
  rewrite <- Hl at 1. apply substring_prefix.
Qed.

(** *** The calendar *)

Ltac div_lia := Z.to_euclidean_division_equations; lia.

Lemma civil_from_days_spec (n : Z) :
  forall y m d, civil_from_days n = (y, m, d) ->
  1 <= m <= 12 /\ 1 <= d <= 31 /\ days_from_civil y m d = n.
Proof.
  intros y m d. unfold civil_from_days.
  set (z := n + 719468). set (era := z / 146097). set (doe := z - era * 146097).
  set (yoe := (doe - doe / 1460 + doe / 36524 - doe / 146096) / 365).
  set (doy := doe - (365 * yoe + yoe / 4 - yoe / 100)).
  set (mp := (5 * doy + 2) / 153).
  assert (Hdoe : 0 <= doe <= 146096) by (subst doe era; div_lia).
  assert (Hyoe : 0 <= yoe <= 399) by (subst yoe; div_lia).
  assert (Hdoy : 0 <= doy <= 365) by (subst doy yoe; div_lia).
  assert (Hmp : 0 <= mp <= 11) by (subst mp; div_lia).
  assert (Hd : 1 <= doy - (153 * mp + 2) / 5 + 1 <= 31) by (subst mp; div_lia).
  assert (Hera : (yoe + era * 400) / 400 = era).
  { rewrite Z.div_add by lia. rewrite Z.div_small by lia. lia. }
  intro E.
  assert (Hy : (if (if mp <? 10 then mp + 3 else mp - 9) <=? 2
                then yoe + era * 400 + 1 else yoe + era * 400) = y) by congruence.
  assert (Hm : (if mp <? 10 then mp + 3 else mp - 9) = m) by congruence.
  assert (Hdd : d = doy - (153 * mp + 2) / 5 + 1) by congruence.
  clear E. subst d.
  split; [destruct (mp <? 10) eqn:Emp; lia|]. split; [exact Hd|].
  unfold days_from_civil. cbv zeta.
  destruct (mp <? 10) eqn:Emp.
  - apply Z.ltb_lt in Emp. subst m.
    assert (E1 : (mp + 3 <=? 2) = false) by (apply Z.leb_gt; lia).
    assert (E2 : (2 <? mp + 3) = true) by (apply Z.ltb_lt; lia).
    rewrite E1 in *. rewrite E2. subst y. rewrite Hera.
    replace (mp + 3 - 3) with mp by lia.
    replace (yoe + era * 400 - era * 400) with yoe by lia.
    subst doy doe z. lia.
  - apply Z.ltb_ge in Emp. subst m.
    assert (E1 : (mp - 9 <=? 2) = true) by (apply Z.leb_le; lia).
    assert (E2 : (2 <? mp - 9) = false) by (apply Z.ltb_ge; lia).
    rewrite E1 in *. rewrite E2. subst y.
    replace (yoe + era * 400 + 1 - 1) with (yoe + era * 400) by lia.
    rewrite Hera.
    replace (mp - 9 + 9) with mp by lia.
    replace (yoe + era * 400 - era * 400) with yoe by lia.
    subst doy doe z. lia.
Qed.

Lemma days_from_civil_shift (y m d k : Z) :
  days_from_civil y m (d + k) = days_from_civil y m d + k.
Proof. unfold days_from_civil. cbv zeta. lia. Qed.

Lemma MakeDay_civil (y m dt : Z) :
  1 <= m <= 12 -> MakeDay y (m - 1) dt = days_from_civil y m dt.
Proof.
  intro Hm. unfold MakeDay.
  assert (E1 : (m - 1) / 12 = 0) by (apply Z.div_small; lia).
  assert (E2 : (m - 1) mod 12 = m - 1) by (apply Z.mod_small; lia).
  rewrite E1, E2.
  replace (y + 0) with y by lia. replace (m - 1 + 1) with m by lia.
  replace dt with (1 + (dt - 1)) at 2 by lia.
  rewrite days_from_civil_shift. lia.
Qed.

Lemma year_bounds (n y m d : Z) :
  -100000 <= n <= 100000000 -> civil_from_days n = (y, m, d) -> 1600 <= y < 1000000.
Proof.
  intros Hn. unfold civil_from_days.
  set (z := n + 719468). set (era := z / 146097). set (doe := z - era * 146097).
  set (yoe := (doe - doe / 1460 + doe / 36524 - doe / 146096) / 365).
  set (doy := doe - (365 * yoe + yoe / 4 - yoe / 100)).
  set (mp := (5 * doy + 2) / 153).
  assert (Hera : 4 <= era <= 689) by (subst era z; div_lia).
  assert (Hdoe : 0 <= doe <= 146096) by (subst doe era; div_lia).
  assert (Hyoe : 0 <= yoe <= 399) by (subst yoe; div_lia).
  intro E.
  assert (Hy : (if (if mp <? 10 then mp + 3 else mp - 9) <=? 2
                then yoe + era * 400 + 1 else yoe + era * 400) = y) by congruence.
  destruct ((if mp <? 10 then mp + 3 else mp - 9) <=? 2); lia.
Qed.

Lemma Day_local_of_utc (tz x : Z) : Day (LocalTime tz (UTC tz (x * msPerDay))) = x.
Proof.
  unfold LocalTime, UTC, Day.
  replace (x * msPerDay - tz * msPerMinute + tz * msPerMinute) with (x * msPerDay) by lia.
  apply Z.div_mul. unfold msPerDay. lia.
Qed.

Lemma WeekDay_range (n : Z) : 0 <= WeekDayOfDay n <= 6.
Proof. unfold WeekDayOfDay. div_lia. Qed.

(** What [getWeekStart] computes: local midnight of the week start of the local day. *)
Lemma getWeekStart_spec (tz t : Z) :
  -100000 <= Day (LocalTime tz t) <= 100000000 ->
  getWeekStart tz (Some t)
  = Some (UTC tz (spec_weekStart (Day (LocalTime tz t)) * msPerDay)).
Proof.
  intro Hr. unfold getWeekStart, getFullYear, getMonth, getDate, getDay, option_map.
  set (L := Day (LocalTime tz t)) in *.
  destruct (civil_from_days L) as [[y m] d] eqn:E.
  destruct (civil_from_days_spec L y m d E) as [Hm [Hd Hrt]].
  pose proof (year_bounds L y m d Hr E) as Hy.
  pose proof (WeekDay_range L) as Hw.
  assert (Eq : (0 <=? y) && (y <=? 99) = false).
  { apply andb_false_iff. right. apply Z.leb_gt. lia. }
  unfold spec_weekStart, inum_strict_eq, inum_sub.
  destruct (WeekDayOfDay L =? 0) eqn:E0; unfold inum_add, new_Date_ymd; rewrite Eq;
    rewrite MakeDay_civil by exact Hm; do 3 f_equal.
  - apply Z.eqb_eq in E0. rewrite E0.
    replace (d - 0 + -6) with (d + (-6)) by lia.
    rewrite days_from_civil_shift. lia.
  - replace (d - WeekDayOfDay L + 1) with (d + (1 - WeekDayOfDay L)) by lia.
    rewrite days_from_civil_shift. lia.
Qed.

Lemma append_inj (a1 a2 b1 b2 : string) :
  String.length a1 = String.length a2 ->
  (a1 ++ b1 = a2 ++ b2)%string -> a1 = a2 /\ b1 = b2.
Proof.
  revert a2. induction a1 as [|c a1 IH]; intros [|c2 a2]; simpl; intros Hl H;
    try discriminate.
  - split; [reflexivity|exact H].
  - injection H as Hc H. injection Hl as Hl.
    destruct (IH a2 Hl H) as [E1 E2]. subst. split; reflexivity.
Qed.

Lemma digit_char_inj (a b : Z) : digit_char a = digit_char b -> a mod 10 = b mod 10.
Proof.
  unfold digit_char. intro H. apply (f_equal nat_of_ascii) in H.
  assert (Ha : 0 <= a mod 10 < 10) by (apply Z.mod_pos_bound; lia).
  assert (Hb : 0 <= b mod 10 < 10) by (apply Z.mod_pos_bound; lia).
  rewrite !nat_ascii_embedding in H by lia. lia.
Qed.

Lemma pad_inj (w : nat) :
  forall a b : Z,
    0 <= a < 10 ^ Z.of_nat w -> 0 <= b < 10 ^ Z.of_nat w ->
    pad w a = pad w b -> a = b.
Proof.
  induction w as [|w IH]; intros a b Ha Hb H.
  - simpl in Ha, Hb. lia.
  - rewrite Nat2Z.inj_succ, Z.pow_succ_r in Ha, Hb by lia.
    simpl in H. apply append_inj in H; [|rewrite !length_pad; reflexivity].
    destruct H as [H1 H2]. injection H2 as H2. apply digit_char_inj in H2.
    assert (E : a / 10 = b / 10) by (apply IH; [div_lia|div_lia|exact H1]).
    div_lia.
Qed.

Lemma day_name_length (wd : Z) : 0 <= wd <= 6 -> String.length (day_name wd) = 3%nat.
Proof.
  intro H.
  assert (C : wd = 0 \/ wd = 1 \/ wd = 2 \/ wd = 3 \/ wd = 4 \/ wd = 5 \/ wd = 6) by lia.
  repeat (destruct C as [->|C]; [reflexivity|]). subst. reflexivity.
Qed.

Lemma month_name_length (m : Z) : String.length (month_name m) = 3%nat.
Proof.
  destruct (Z_le_gt_dec 1 m) as [H1|H1]; [destruct (Z_le_gt_dec m 12) as [H2|H2]|].
  - assert (C : m = 1 \/ m = 2 \/ m = 3 \/ m = 4 \/ m = 5 \/ m = 6 \/ m = 7 \/ m = 8
                \/ m = 9 \/ m = 10 \/ m = 11 \/ m = 12) by lia.
    repeat (destruct C as [->|C]; [reflexivity|]). subst. reflexivity.
  - destruct m as [|p|p]; try lia.
    do 4 (destruct p as [p|p|]; try reflexivity; try lia).
  - destruct m as [|p|p]; try reflexivity; lia.
Qed.

Lemma month_name_inj (m1 m2 : Z) :
  1 <= m1 <= 12 -> 1 <= m2 <= 12 -> month_name m1 = month_name m2 -> m1 = m2.
Proof.
  intros H1 H2.
  assert (C1 : m1 = 1 \/ m1 = 2 \/ m1 = 3 \/ m1 = 4 \/ m1 = 5 \/ m1 = 6 \/ m1 = 7
               \/ m1 = 8 \/ m1 = 9 \/ m1 = 10 \/ m1 = 11 \/ m1 = 12) by lia.
  assert (C2 : m2 = 1 \/ m2 = 2 \/ m2 = 3 \/ m2 = 4 \/ m2 = 5 \/ m2 = 6 \/ m2 = 7
               \/ m2 = 8 \/ m2 = 9 \/ m2 = 10 \/ m2 = 11 \/ m2 = 12) by lia.
  repeat (destruct C1 as [->|C1]);
    repeat (destruct C2 as [->|C2]); subst; intro H;
    first [reflexivity | discriminate H].
Qed.

Lemma year_width_bound (y : Z) :
  0 <= y < 1000000 -> 0 <= y < 10 ^ Z.of_nat (year_width y).
Proof.
  intro H. unfold year_width.
  destruct (y <? 10000) eqn:E1; [apply Z.ltb_lt in E1; simpl; lia|].
  destruct (y <? 100000) eqn:E2; [apply Z.ltb_lt in E2; simpl; lia|].
  simpl. lia.
Qed.

Lemma space_inj (a b : string) : (" " ++ a = " " ++ b)%string -> a = b.
Proof. simpl. intro H. injection H as H. exact H. Qed.

(** Two local midnights with the same [toDateString] are the same day. *)
Lemma toDateString_midnight_inj (tz D1 D2 : Z) :
  -100000 <= D1 <= 100000000 -> -100000 <= D2 <= 100000000 ->
  toDateString tz (Some (UTC tz (D1 * msPerDay)))
  = toDateString tz (Some (UTC tz (D2 * msPerDay))) ->
  D1 = D2.
Proof.
  intros H1 H2. unfold toDateString. rewrite !Day_local_of_utc.
  destruct (civil_from_days D1) as [[y1 m1] d1] eqn:E1.
  destruct (civil_from_days D2) as [[y2 m2] d2] eqn:E2.
  destruct (civil_from_days_spec D1 y1 m1 d1 E1) as [Hm1 [Hd1 Hr1]].
  destruct (civil_from_days_spec D2 y2 m2 d2 E2) as [Hm2 [Hd2 Hr2]].
  pose proof (year_bounds D1 y1 m1 d1 H1 E1) as Hy1.
  pose proof (year_bounds D2 y2 m2 d2 H2 E2) as Hy2.
  assert (N1 : (y1 <? 0) = false) by (apply Z.ltb_ge; lia).
  assert (N2 : (y2 <? 0) = false) by (apply Z.ltb_ge; lia).
  rewrite N1, N2, !Z.abs_eq by lia.
  intro H.
  apply append_inj in H;
    [|rewrite !day_name_length by apply WeekDay_range; reflexivity].
  destruct H as [_ H]. apply space_inj in H.
  apply append_inj in H; [|rewrite !month_name_length; reflexivity].
  destruct H as [Hm H]. apply space_inj in H.
  apply append_inj in H; [|rewrite !length_pad; reflexivity].
  destruct H as [Hd H]. apply space_inj in H.
  change (pad (year_width y1) y1 = pad (year_width y2) y2) in H.
  apply month_name_inj in Hm; [|assumption|assumption].
  apply pad_inj in Hd; [|simpl; lia|simpl; lia].
  assert (Hw : year_width y1 = year_width y2).
  { apply (f_equal String.length) in H. rewrite !length_pad in H. exact H. }
  rewrite Hw in H. apply pad_inj in H.
  - subst. reflexivity.
  - rewrite <- Hw. apply year_width_bound. lia.
  - apply year_width_bound. lia.
Qed.

Lemma Day_local_east (tz n : Z) :
  0 <= tz < 1440 -> Day (LocalTime tz (n * msPerDay)) = n.
Proof. unfold Day, LocalTime, msPerDay, msPerMinute. intro H. div_lia. Qed.

Lemma Day_local_west (tz n : Z) :
  -1440 <= tz < 0 -> Day (LocalTime tz (n * msPerDay)) = n - 1.
Proof. unfold Day, LocalTime, msPerDay, msPerMinute. intro H. div_lia. Qed.

Lemma spec_weekStart_range (n : Z) : n - 6 <= spec_weekStart n <= n.
Proof.
  unfold spec_weekStart. pose proof (WeekDay_range n).
  destruct (WeekDayOfDay n =? 0) eqn:E; [lia|]. apply Z.eqb_neq in E. lia.
Qed.

Lemma isSameMonth_reads_local_day (tz now : Z) (s : string) (n : Z) :
  new_Date_string s = Some (n * msPerDay) ->
  isSameMonth tz now s
  = spec_isSameMonth (Day (LocalTime tz (n * msPerDay))) (Day (LocalTime tz now)).
Proof.
  intro Hs. unfold isSameMonth, spec_isSameMonth. rewrite Hs.
  unfold getFullYear, getMonth, option_map, inum_strict_eq.
  destruct (civil_from_days (Day (LocalTime tz (n * msPerDay)))) as [[y1 m1] d1].
  destruct (civil_from_days (Day (LocalTime tz now))) as [[y2 m2] d2].
  f_equal. destruct (m1 =? m2) eqn:E.
  - apply Z.eqb_eq in E. apply Z.eqb_eq. lia.
  - apply Z.eqb_neq in E. apply Z.eqb_neq. lia.
Qed.

Lemma isSameWeek_reads_local_day (tz now : Z) (s : string) (n : Z) :
  new_Date_string s = Some (n * msPerDay) ->
  0 <= Day (LocalTime tz (n * msPerDay)) <= 100000000 ->
  0 <= Day (LocalTime tz now) <= 100000000 ->
  isSameWeek tz now s
  = spec_isSameWeek (Day (LocalTime tz (n * msPerDay))) (Day (LocalTime tz now)).
Proof.
  intros Hs H1 H2. unfold isSameWeek, spec_isSameWeek. rewrite Hs.
  rewrite !getWeekStart_spec by lia.
  set (D1 := spec_weekStart (Day (LocalTime tz (n * msPerDay)))).
  set (D2 := spec_weekStart (Day (LocalTime tz now))).
  pose proof (spec_weekStart_range (Day (LocalTime tz (n * msPerDay)))) as R1.
  pose proof (spec_weekStart_range (Day (LocalTime tz now))) as R2.
  fold D1 in R1. fold D2 in R2.
  destruct (D1 =? D2) eqn:E.
  - apply Z.eqb_eq in E. rewrite E. apply String.eqb_refl.
  - apply Z.eqb_neq in E. apply String.eqb_neq. intro H. apply E.
    apply (toDateString_midnight_inj tz); [lia|lia|exact H].
Qed.

Lemma digit_char_is_digit (a : Z) :
  is_digit (digit_char a) = true /\ digit_val (digit_char a) = a mod 10.
Proof.
  unfold is_digit, digit_val, code, digit_char.
  assert (Ha : 0 <= a mod 10 < 10) by (apply Z.mod_pos_bound; lia).
  rewrite nat_ascii_embedding by lia. rewrite Z2Nat.id by lia.
  split; [|lia]. apply andb_true_iff. split; apply Z.leb_le; lia.
Qed.

Lemma digits2_pad (a : Z) :
  digits2 (digit_char (a / 10)) (digit_char a) = Some (a mod 100).
Proof.
  unfold digits2.
  destruct (digit_char_is_digit (a / 10)) as [E1 V1].
  destruct (digit_char_is_digit a) as [E2 V2].
  rewrite E1, E2, V1, V2. cbn [andb]. f_equal. div_lia.
Qed.

Lemma days_from_civil_year_10000 (y m d : Z) :
  10000 <= y -> 1 <= m <= 12 -> 1 <= d -> 2932897 <= days_from_civil y m d.
Proof.
  intros Hy Hm Hd. unfold days_from_civil. cbv zeta.
  destruct (m <=? 2) eqn:E1; destruct (2 <? m) eqn:E2;
    try (apply Z.leb_le in E1); try (apply Z.leb_gt in E1);
    try (apply Z.ltb_lt in E2); try (apply Z.ltb_ge in E2); try lia; div_lia.
Qed.

(** A stored date reads back as midnight UTC of its day. *)
Lemma new_Date_string_date_string (n : Z) :
  0 <= n <= 2932896 -> new_Date_string (date_string n) = Some (n * msPerDay).
Proof.
  intro Hn. unfold date_string.
  destruct (civil_from_days n) as [[y m] d] eqn:E.
  destruct (civil_from_days_spec n y m d E) as [Hm [Hd Hr]].
  assert (Hy : 0 <= y <= 9999).
  { split; [pose proof (year_bounds n y m d ltac:(lia) E); lia|].
    destruct (Z_le_gt_dec y 9999) as [Hle|Hgt]; [exact Hle|exfalso].
    pose proof (days_from_civil_year_10000 y m d ltac:(lia) Hm ltac:(lia)). lia. }
  cbn [pad append]. unfold new_Date_string.
  rewrite (digits2_pad (y / 10 / 10)), (digits2_pad y), (digits2_pad m), (digits2_pad d).
  assert (Ey : 100 * ((y / 10 / 10) mod 100) + y mod 100 = y) by div_lia.
  assert (Em : m mod 100 = m) by (apply Z.mod_small; lia).
  assert (Ed : d mod 100 = d) by (apply Z.mod_small; lia).
  rewrite Ey, Em, Ed.
  assert (Ec : (1 <=? m) && (m <=? 12) && (1 <=? d) && (d <=? 31) = true).
  { repeat (apply andb_true_iff; split); apply Z.leb_le; lia. }
  rewrite Ec, MakeDay_civil by exact Hm. rewrite Hr. reflexivity.
Qed.

Lemma year_0_9999 (n y m d : Z) :
  0 <= n <= 2932896 -> civil_from_days n = (y, m, d) -> 0 <= y <= 9999.
Proof.
  intros Hn E.
  destruct (civil_from_days_spec n y m d E) as [Hm [Hd Hr]].
  split; [pose proof (year_bounds n y m d ltac:(lia) E); lia|].
  destruct (Z_le_gt_dec y 9999) as [Hle|Hgt]; [exact Hle|exfalso].
  pose proof (days_from_civil_year_10000 y m d ltac:(lia) Hm ltac:(lia)). lia.
Qed.

(** *** What the code does, in every zone *)

(** The date [addExpense] stores is the UTC date of the clock (from
    1970 to the end of the year 9999). *)
Lemma created_row_date_is_utc (now : Z) (w : World) :
  0 <= Day now <= 2932896 ->
  Expense.date (created_row now w) = utc_date now.
Proof.
  intro H. simpl. apply iso_date_is_utc_date.
  destruct (civil_from_days (Day now)) as [[y m] d] eqn:E.
  exact (year_0_9999 _ _ _ _ H E).
Qed.

(** X14.  On a device at or east of Greenwich (an offset from 0 up to
    24 hours), [isSameWeek] on a stored date is true exactly when the
    Monday-to-Sunday week of that calendar day is the week of the local
    day of the clock. *)
Lemma isSameWeek_east (tz now n : Z) :
  0 <= tz < 1440 -> 0 <= n <= 2932896 ->
  0 <= Day (LocalTime tz now) <= 100000000 ->
  isSameWeek tz now (date_string n) = spec_isSameWeek n (Day (LocalTime tz now)).
Proof.
  intros Htz Hn Hnow.
  rewrite (isSameWeek_reads_local_day tz now _ n (new_Date_string_date_string n Hn));
    rewrite ?Day_local_east by exact Htz; [reflexivity|lia|exact Hnow].
Qed.

(** X15.  On a device west of Greenwich (an offset down to 24 hours),
    [isSameWeek] classifies a stored date by the week of the day
    before it. *)
Lemma isSameWeek_west (tz now n : Z) :
  -1440 <= tz < 0 -> 1 <= n <= 2932896 ->
  0 <= Day (LocalTime tz now) <= 100000000 ->
  isSameWeek tz now (date_string n) = spec_isSameWeek (n - 1) (Day (LocalTime tz now)).
Proof.
  intros Htz Hn Hnow.
  rewrite (isSameWeek_reads_local_day tz now _ n
             (new_Date_string_date_string n ltac:(lia)));
    rewrite ?Day_local_west by exact Htz; [reflexivity|lia|exact Hnow].
Qed.

(** X16.  On a device at or east of Greenwich, [isSameMonth] on a
    stored date is true exactly when that calendar day has the year and
    the month of the local day of the clock. *)
Lemma isSameMonth_east (tz now n : Z) :
  0 <= tz < 1440 -> 0 <= n <= 2932896 ->
  isSameMonth tz now (date_string n) = spec_isSameMonth n (Day (LocalTime tz now)).
Proof.
  intros Htz Hn.
  rewrite (isSameMonth_reads_local_day tz now _ n (new_Date_string_date_string n Hn)).
  rewrite Day_local_east by exact Htz. reflexivity.
Qed.

(** X17.  On a device west of Greenwich, [isSameMonth] classifies a
    stored date by the year and the month of the day before it. *)
Lemma isSameMonth_west (tz now n : Z) :
  -1440 <= tz < 0 -> 0 <= n <= 2932896 ->
  isSameMonth tz now (date_string n) = spec_isSameMonth (n - 1) (Day (LocalTime tz now)).
Proof.
  intros Htz Hn.
  rewrite (isSameMonth_reads_local_day tz now _ n (new_Date_string_date_string n Hn)).
  rewrite Day_local_west by exact Htz. reflexivity.
Qed.

(** *** The three claims about dates, at their failing inputs *)

(** C3 fails on the code.  On a device two hours east of Greenwich, at
    00:30 local time on Monday 2024-07-01 (22:30 UTC on 2024-06-30),
    [addExpense] stores the date 2024-06-30: the UTC date, not the
    local one.  The record just created is then missing from the week
    and the month of the filters, which read the clock in local
    time. *)
Theorem addExpense_stores_utc_date :
  let now := instant 2024 6 30 22 30 in
  let tz := 120 in
  let w' := snd (addExpense now (form "12.50" "Food" "")) in
  local_date tz now = "2024-07-01"
  /\ utc_date now = "2024-06-30"
  /\ map Expense.date (State.expenses (state w')) = ["2024-06-30"]
  /\ filteredExpenses tz now (State.expenses (state w')) "MONTH" = []
  /\ filteredExpenses tz now (State.expenses (state w')) "WEEK" = [].
Proof. vm_compute. repeat split. Qed.

(** C2 fails on the code.  On a device five hours west of Greenwich, at
    noon local time on 2024-06-05, the Monday 2024-06-03 is classified
    out of the week and the next Monday 2024-06-10 into it, against the
    week starts of those calendar days. *)
Theorem isSameWeek_west_of_greenwich :
  let tz := -300 in
  let now := instant 2024 6 5 17 0 in
  let today := days_from_civil 2024 6 5 in
  local_date tz now = "2024-06-05"
  /\ isSameWeek tz now "2024-06-03" = false
  /\ spec_isSameWeek (days_from_civil 2024 6 3) today = true
  /\ isSameWeek tz now "2024-06-09" = true
  /\ spec_isSameWeek (days_from_civil 2024 6 9) today = true
  /\ isSameWeek tz now "2024-06-10" = true
  /\ spec_isSameWeek (days_from_civil 2024 6 10) today = false.
Proof. vm_compute. repeat split. Qed.

(** C4 fails on the code.  On a device five hours west of Greenwich, at
    noon local time on 2024-06-15, the first of June is classified out
    of the month and the first of July into it. *)
Theorem isSameMonth_west_of_greenwich :
  let tz := -300 in
  let now := instant 2024 6 15 17 0 in
  let today := days_from_civil 2024 6 15 in
  local_date tz now = "2024-06-15"
  /\ isSameMonth tz now "2024-06-01" = false
  /\ spec_isSameMonth (days_from_civil 2024 6 1) today = true
  /\ isSameMonth tz now "2024-07-01" = true
  /\ spec_isSameMonth (days_from_civil 2024 7 1) today = false.
Proof. vm_compute. repeat split. Qed.

(** The scenario of the contract on a device set to UTC. *)
Example isSameWeek_scenario_utc :
  let now := instant 2024 6 5 12 0 in
  isSameWeek 0 now "2024-06-03" = true
  /\ isSameWeek 0 now "2024-06-09" = true
  /\ isSameWeek 0 now "2024-06-10" = false.
Proof. vm_compute. repeat split. Qed.

End Dates.

(* ===================================================================== *)
(** * The repository: loading, deleting, saving on a missing id *)
(* ===================================================================== *)

Module Repo.

Import SqlFacts.

Lemma insert_desc_front (a : Expense.t) (l : list Expense.t) :
  Forall (fun y => Expense.id y <= Expense.id a) l -> Sql.insert_desc a l = a :: l.
Proof.
  intro H. destruct l as [|x l]; simpl; [reflexivity|].
  inversion H as [|? ? Hx _]; subst.
  destruct (Expense.id x <=? Expense.id a) eqn:E; [reflexivity|].
  apply Z.leb_gt in E. lia.
Qed.

Lemma insert_desc_filter_keep (p : Expense.t -> bool) (a : Expense.t) (l : list Expense.t) :
  StronglySorted newer l -> p a = true ->
  Sql.insert_desc a (filter p l) = filter p (Sql.insert_desc a l).
Proof.
  intros Hs Ha. induction Hs as [|x l Hs IH Hx]; simpl.
  - rewrite Ha. reflexivity.
  - destruct (Expense.id x <=? Expense.id a) eqn:E.
    + apply Z.leb_le in E. cbn [filter]. rewrite Ha.
      apply insert_desc_front.
      assert (Hall : Forall (fun y => Expense.id y <= Expense.id a) (x :: l)).
      { constructor; [exact E|]. eapply Forall_impl; [|exact Hx].
        intros y Hy. unfold newer in Hy. lia. }
      apply Forall_forall. intros y Hy.
      rewrite Forall_forall in Hall. apply Hall.
      change (In y (filter p (x :: l))) in Hy.
      apply filter_In in Hy. apply Hy.
    + cbn [filter]. destruct (p x); [|exact IH].
      simpl. rewrite E. rewrite IH. reflexivity.
Qed.

Lemma insert_desc_filter_drop (p : Expense.t -> bool) (a : Expense.t) (l : list Expense.t) :
  p a = false -> filter p (Sql.insert_desc a l) = filter p l.
Proof.
  intro Ha. induction l as [|x l IH]; simpl.
  - rewrite Ha. reflexivity.
  - destruct (Expense.id x <=? Expense.id a); cbn [filter].
    + rewrite Ha. reflexivity.
    + rewrite IH. reflexivity.
Qed.

Lemma order_sorted (l : list Expense.t) : StronglySorted newer (Sql.order_by_id_desc l).
Proof. apply (select_all_descending (Sql.mkTable l 0)). Qed.

Lemma order_filter (p : Expense.t -> bool) (l : list Expense.t) :
  Sql.order_by_id_desc (filter p l) = filter p (Sql.order_by_id_desc l).
Proof.
  induction l as [|a l IH]; simpl; [reflexivity|].
  fold (Sql.order_by_id_desc l). destruct (p a) eqn:Ha.
  - simpl. fold (Sql.order_by_id_desc (filter p l)). rewrite IH.
    apply insert_desc_filter_keep; [apply order_sorted|exact Ha].
  - rewrite IH. symmetry. apply insert_desc_filter_drop. exact Ha.
Qed.

Lemma insert_desc_perm (a : Expense.t) (l : list Expense.t) :
  Permutation (Sql.insert_desc a l) (a :: l).
Proof.
  induction l as [|x l IH]; simpl; [apply Permutation_refl|].
  destruct (Expense.id x <=? Expense.id a); [apply Permutation_refl|].
  eapply Permutation_trans; [apply perm_skip; exact IH|apply perm_swap].
Qed.

Lemma order_perm (l : list Expense.t) : Permutation (Sql.order_by_id_desc l) l.
Proof.
  induction l as [|a l IH]; simpl; [constructor|].
  eapply Permutation_trans; [apply insert_desc_perm|apply perm_skip; exact IH].
Qed.

Lemma filter_no_match (i : Z) (l : list Expense.t) :
  (forall r, In r l -> Expense.id r <> i) ->
  filter (fun r => negb (Expense.id r =? i)) l = l.
Proof.
  intro H. induction l as [|a l IH]; simpl; [reflexivity|].
  assert (Ha : (Expense.id a =? i) = false)
    by (apply Z.eqb_neq; apply H; left; reflexivity).
  rewrite Ha. simpl. f_equal. apply IH. intros r Hr. apply H. right. exact Hr.
Qed.

Lemma map_no_match (i : Z) (f : Expense.t -> Expense.t) (l : list Expense.t) :
  (forall r, In r l -> Expense.id r <> i) ->
  map (fun r => if Expense.id r =? i then f r else r) l = l.
Proof.
  intro H. induction l as [|a l IH]; simpl; [reflexivity|].
  assert (Ha : (Expense.id a =? i) = false)
    by (apply Z.eqb_neq; apply H; left; reflexivity).
  rewrite Ha. f_equal. apply IH. intros r Hr. apply H. right. exact Hr.
Qed.

Lemma filter_one_match (i : Z) (l : list Expense.t) :
  NoDup (map Expense.id l) -> In i (map Expense.id l) ->
  S (List.length (filter (fun r => negb (Expense.id r =? i)) l)) = List.length l.
Proof.
  induction l as [|a l IH]; simpl; intros Hnd Hin; [contradiction|].
  inversion Hnd as [|? ? Ha Hl]; subst.
  destruct (Expense.id a =? i) eqn:E; simpl.
  - apply Z.eqb_eq in E. subst i. f_equal. f_equal. apply filter_no_match.
    intros r Hr Heq. apply Ha. rewrite <- Heq. apply in_map. exact Hr.
  - apply Z.eqb_neq in E. f_equal. apply IH; [exact Hl|].
    destruct Hin as [Hin|Hin]; [contradiction|exact Hin].
Qed.

(** X1.  [loadExpenses] puts in memory every row of the table, each
    once, in descending id order; it issues one SELECT and leaves the
    table and the rest of the state as they are. *)
Theorem loadExpenses_reads_whole_table :
  forall w : World,
    let w' := loadExpenses w in
    Permutation (State.expenses (state w')) (Sql.rows (table w))
    /\ StronglySorted newer (State.expenses (state w'))
    /\ table w' = table w
    /\ issued w' = (issued w ++ [Sql.SelectAll])%list
    /\ State.filter (state w') = State.filter (state w)
    /\ State.editingExpense (state w') = State.editingExpense (state w).
Proof.
  intros w w'. unfold w', loadExpenses, getAllAsync, setExpenses. simpl.
  split; [apply order_perm|]. split; [apply select_all_descending|].
  repeat split.
Qed.

(** X2.  [deleteExpense(id)] followed by the reload it does gives the
    records there were without those of that id, the others unchanged
    and in their order; it issues one DELETE and one SELECT and the id
    counter of the table stays. *)
Theorem deleteExpense_removes_that_id :
  forall (i : Z) (w : World),
    let w' := snd (deleteExpense i w) in
    fst (deleteExpense i w) = Resolved
    /\ Sql.select_all (table w')
       = filter (fun r => negb (Expense.id r =? i)) (Sql.select_all (table w))
    /\ State.expenses (state w') = Sql.select_all (table w')
    /\ (forall r, In r (Sql.select_all (table w'))
                  <-> In r (Sql.select_all (table w)) /\ Expense.id r <> i)
    /\ issued w' = (issued w ++ [Sql.Delete i; Sql.SelectAll])%list
    /\ Sql.seq (table w') = Sql.seq (table w).
Proof.
  intros i w w'.
  assert (Hsel : Sql.select_all (table w')
                 = filter (fun r => negb (Expense.id r =? i)) (Sql.select_all (table w))).
  { unfold w', deleteExpense, Sql.select_all. simpl. apply order_filter. }
  split; [reflexivity|]. split; [exact Hsel|]. split; [reflexivity|]. split.
  - intro r. rewrite Hsel, filter_In, negb_true_iff, Z.eqb_neq. reflexivity.
  - split; [|reflexivity]. unfold w', deleteExpense. simpl.
    rewrite <- app_assoc. reflexivity.
Qed.

(** X3.  Deleting an id that no row has changes no row: the table and
    the records read back are as before. *)
Theorem deleteExpense_missing_id_changes_nothing :
  forall (i : Z) (w : World),
    (forall r, In r (Sql.rows (table w)) -> Expense.id r <> i) ->
    table (snd (deleteExpense i w)) = table w
    /\ State.expenses (state (snd (deleteExpense i w))) = Sql.select_all (table w).
Proof.
  intros i w H.
  assert (E : table (snd (deleteExpense i w)) = table w).
  { unfold deleteExpense. simpl. unfold Sql.delete.
    rewrite filter_no_match by exact H. destruct (table w); reflexivity. }
  split; [exact E|].
  change (Sql.select_all (table (snd (deleteExpense i w))) = Sql.select_all (table w)).
  rewrite E. reflexivity.
Qed.

(** X4.  With ids in use once, deleting the id of a row leaves one
    record fewer. *)
Theorem deleteExpense_present_id_removes_one :
  forall (i : Z) (w : World),
    NoDup (map Expense.id (Sql.rows (table w))) ->
    In i (map Expense.id (Sql.rows (table w))) ->
    S (List.length (State.expenses (state (snd (deleteExpense i w)))))
    = List.length (Sql.select_all (table w))
    /\ ~ In i (map Expense.id (State.expenses (state (snd (deleteExpense i w))))).
Proof.
  intros i w Hnd Hin.
  change (State.expenses (state (snd (deleteExpense i w))))
    with (Sql.select_all (Sql.delete i (table w))).
  unfold Sql.select_all, Sql.delete. simpl. split.
  - rewrite (Permutation_length (order_perm _)).
    rewrite (Permutation_length (order_perm (Sql.rows (table w)))).
    apply filter_one_match; assumption.
  - intro H. apply in_map_iff in H. destruct H as [r [Hr Hi]].
    apply (Permutation_in _ (order_perm _)) in Hi.
    apply filter_In in Hi. destruct Hi as [_ Hi].
    apply negb_true_iff in Hi. apply Z.eqb_neq in Hi. contradiction.
Qed.

Lemma handleSaveEdit_editing (w : World) (e : Expense.t) :
  State.editingExpense (state w) = Some e ->
  handleSaveEdit w =
    (Resolved, setEditingExpense None (loadExpenses (runAsync
       (Sql.Update (Expense.amount e) (Expense.category e) (or_empty (Expense.note e))
          (Expense.date e) (Expense.id e)) w))).
Proof. intro He. unfold handleSaveEdit. rewrite He. reflexivity. Qed.

(** X5.  Saving an edit whose id no row has changes no row and adds
    none: the UPDATE and the SELECT are issued, nothing is raised, the
    records read back are as before and the edit panel closes. *)
Theorem handleSaveEdit_missing_id_changes_nothing :
  forall (w : World) (e : Expense.t),
    State.editingExpense (state w) = Some e ->
    (forall r, In r (Sql.rows (table w)) -> Expense.id r <> Expense.id e) ->
    let w' := snd (handleSaveEdit w) in
    fst (handleSaveEdit w) = Resolved
    /\ table w' = table w
    /\ State.expenses (state w') = Sql.select_all (table w)
    /\ State.editingExpense (state w') = None
    /\ issued w' = (issued w ++
         [Sql.Update (Expense.amount e) (Expense.category e) (or_empty (Expense.note e))
            (Expense.date e) (Expense.id e); Sql.SelectAll])%list.
Proof.
  intros w e He H w'. unfold w'. rewrite (handleSaveEdit_editing w e He).
  assert (E : Sql.update (Expense.amount e) (Expense.category e) (or_empty (Expense.note e))
                (Expense.date e) (Expense.id e) (table w) = table w).
  { unfold Sql.update. rewrite (map_no_match (Expense.id e)) by exact H.
    destruct (table w); reflexivity. }
  simpl. rewrite E. repeat split. rewrite <- app_assoc. reflexivity.
Qed.

End Repo.

(** A table of two rows and a session state over it. *)
Lemma deleteExpense_missing_id_changes_nothing_witness :
  table (snd (deleteExpense 7 editing)) = table editing.
Proof.
  refine (proj1 (Repo.deleteExpense_missing_id_changes_nothing 7 editing _)).
  intros r [<-|[<-|[]]]; discriminate.
Defined.

Lemma deleteExpense_present_id_removes_one_witness :
  S (List.length (State.expenses (state (snd (deleteExpense 1 editing)))))
  = List.length (Sql.select_all (table editing)).
Proof.
  refine (proj1 (Repo.deleteExpense_present_id_removes_one 1 editing _ _)).
  - simpl. repeat constructor; simpl; intuition discriminate.
  - simpl. left. reflexivity.
Defined.

(* ===================================================================== *)
(** * The table: ids stay unique and are never handed out twice *)
(* ===================================================================== *)

Module TableInv.

Import SqlFacts.

Lemma NoDup_snoc {A : Type} (l : list A) (x : A) :
  NoDup l -> ~ In x l -> NoDup (l ++ [x]).
Proof.
  intros Hl Hx. apply (Permutation_NoDup (Permutation_cons_append l x)).
  constructor; assumption.
Qed.

Lemma ids_of_filter_unique (keep : Expense.t -> bool) (rows : list Expense.t) :
  NoDup (map Expense.id rows) -> NoDup (map Expense.id (filter keep rows)).
Proof.
  set (f := Expense.id). set (p := keep).
  induction rows as [|a l IH]; simpl; intro H; [constructor|].
  inversion H as [|? ? Ha Hl]; subst.
  destruct (p a); simpl; [|apply IH; exact Hl].
  constructor; [|apply IH; exact Hl].
  intro Hin. apply Ha. apply in_map_iff in Hin. destruct Hin as [x [Hx Hin]].
  apply filter_In in Hin. rewrite <- Hx. apply in_map. apply Hin.
Qed.

Lemma update_ids (a : num) (c n d : string) (i : Z) (l : list Expense.t) :
  map Expense.id
    (map (fun r => if Expense.id r =? i then Expense.mk (Expense.id r) a c (Some n) d else r) l)
  = map Expense.id l.
Proof.
  rewrite map_map. apply map_ext. intro r.
  destruct (Expense.id r =? i); reflexivity.
Qed.

Lemma run_seq_mono (st : Sql.statement) (tb : Sql.table) :
  Sql.seq tb <= Sql.seq (Sql.run st tb).
Proof. destruct st; simpl; unfold Sql.next_id; lia. Qed.

Lemma run_table_ok (st : Sql.statement) (tb : Sql.table) :
  table_ok tb -> table_ok (Sql.run st tb).
Proof.
  intros [Hnd Hle]. destruct st as [| |a c n d|i|a c n d i]; simpl.
  - split; assumption.
  - split; assumption.
  - unfold table_ok, Sql.insert. simpl. split.
    + rewrite map_app. simpl. apply NoDup_snoc; [exact Hnd|].
      intro Hin. apply in_map_iff in Hin. destruct Hin as [r [Hr Hin]].
      pose proof (next_id_fresh tb r Hin). lia.
    + apply Forall_app. split.
      * eapply Forall_impl; [|exact Hle]. intros r Hr. simpl in Hr.
        unfold Sql.next_id. lia.
      * constructor; [simpl; lia|constructor].
  - unfold table_ok, Sql.delete. simpl. split.
    + apply ids_of_filter_unique. exact Hnd.
    + apply Forall_forall. intros r Hr. apply filter_In in Hr.
      rewrite Forall_forall in Hle. apply Hle. apply Hr.
  - unfold table_ok, Sql.update. simpl. split.
    + rewrite update_ids. exact Hnd.
    + apply Forall_forall. intros r Hr. apply in_map_iff in Hr.
      destruct Hr as [x [Hx Hin]]. rewrite Forall_forall in Hle.
      specialize (Hle x Hin). destruct (Expense.id x =? i); subst r; simpl; exact Hle.
Qed.

Lemma run_all_ok (sts : list Sql.statement) :
  forall tb, table_ok tb ->
    table_ok (run_all sts tb) /\ Sql.seq tb <= Sql.seq (run_all sts tb).
Proof.
  induction sts as [|st sts IH]; intros tb Hok; simpl.
  - split; [exact Hok|lia].
  - destruct (IH (Sql.run st tb) (run_table_ok st tb Hok)) as [H1 H2].
    split; [exact H1|]. pose proof (run_seq_mono st tb). lia.
Qed.

(** X6.  Each statement the screen issues keeps the ids of the table in
    use once and at most the id counter, and never lowers the
    counter. *)
Theorem statement_keeps_ids_unique :
  forall (st : Sql.statement) (tb : Sql.table),
    table_ok tb ->
    table_ok (Sql.run st tb) /\ Sql.seq tb <= Sql.seq (Sql.run st tb).
Proof.
  intros st tb Hok. split; [apply run_table_ok; exact Hok|apply run_seq_mono].
Qed.

(** X7.  An id is never handed out twice: whatever statements run after
    a row is in the table, deleting that row among them, the next row
    inserted gets an id above the id of that row. *)
Theorem ids_never_reused :
  forall (sts : list Sql.statement) (tb : Sql.table) (r : Expense.t)
         (a : num) (c n d : string),
    table_ok tb -> In r (Sql.rows tb) ->
    let tb' := run_all sts tb in
    Sql.rows (Sql.run (Sql.Insert a c n d) tb')
    = (Sql.rows tb' ++ [Expense.mk (Sql.next_id tb') a c (Some n) d])%list
    /\ Expense.id r < Sql.next_id tb'.
Proof.
  intros sts tb r a c n d [Hnd Hle] Hin tb'. split; [reflexivity|].
  destruct (run_all_ok sts tb (conj Hnd Hle)) as [_ Hseq]. fold tb' in Hseq.
  rewrite Forall_forall in Hle. specialize (Hle r Hin).
  unfold Sql.next_id. lia.
Qed.

End TableInv.

Lemma statement_keeps_ids_unique_witness :
  table_ok (Sql.run (Sql.Delete 1) (table editing)).
Proof.
  refine (proj1 (TableInv.statement_keeps_ids_unique (Sql.Delete 1) (table editing) _)).
  split.
  - simpl. repeat constructor; simpl; intuition discriminate.
  - simpl. repeat constructor; simpl; lia.
Defined.

Lemma ids_never_reused_witness :
  1 < Sql.next_id (run_all [Sql.Delete 2; Sql.Delete 1] (table editing)).
Proof.
  refine (proj2 (TableInv.ids_never_reused [Sql.Delete 2; Sql.Delete 1] (table editing)
                   (Expense.mk 1 (of_Z 10) "Food" None "2024-06-03")
                   zero "" "" "" _ _)).
  - split.
    + simpl. repeat constructor; simpl; intuition discriminate.
    + simpl. repeat constructor; simpl; lia.
  - simpl. left. reflexivity.
Defined.

(* ===================================================================== *)
(** * Totals, category by category *)
(* ===================================================================== *)

Module PerCategory.

Import Obj ObjFacts Totals.













End PerCategory.




(* ===================================================================== *)
(** * Adding: what an accepted input does, and where the record shows *)
(* ===================================================================== *)

Module Adding.

Import SqlFacts.

Lemma guarded_dec (a c : string) :
  {guarded_input a c} + {isNaN (parseFloat a) = false
                         /\ le0 (parseFloat a) = false /\ trim c <> ""}.
Proof.
  unfold guarded_input.
  destruct (parseFloat a) as [| | |q] eqn:E.
  - left. left. reflexivity.
  - destruct (string_dec (trim c) "") as [Hc|Hc].
    + left. right. right. exact Hc.
    + right. repeat split. exact Hc.
  - left. right. left. reflexivity.
  - destruct (le0 (Fin q)) eqn:El.
    + left. right. left. reflexivity.
    + destruct (string_dec (trim c) "") as [Hc|Hc].
      * left. right. right. exact Hc.
      * right. repeat split. exact Hc.
Qed.


Lemma addExpense_guarded (now : Z) (w : World) :
  guarded_input (State.amount (state w)) (State.category (state w)) ->
  addExpense now w = (Resolved, w).
Proof.
  intro H. unfold addExpense. destruct H as [Hn|[Hl|Hc]].
  - rewrite Hn. reflexivity.
  - rewrite Hl, orb_true_r. reflexivity.
  - destruct (isNaN _ || le0 _); [reflexivity|]. rewrite Hc. reflexivity.
Qed.



(** X12.  The date [addExpense] stores reads back, in the filters, as
    midnight UTC of the UTC day of the creation (from 1970 to the end
    of the year 9999). *)
Theorem stored_date_reads_back_as_utc_midnight :
  forall (now : Z) (w : World),
    0 <= Day now <= 2932896 ->
    new_Date_string (Expense.date (created_row now w)) = Some (Day now * msPerDay).
Proof.
  intros now w H. rewrite (Dates.created_row_date_is_utc now w H).
  apply Dates.new_Date_string_date_string. exact H.
Qed.



End Adding.


Lemma stored_date_reads_back_as_utc_midnight_witness :
  new_Date_string
    (Expense.date (created_row (instant 2024 6 30 22 30) (form "12.50" "Food" "")))
  = Some (Day (instant 2024 6 30 22 30) * msPerDay).
Proof.
  apply (Adding.stored_date_reads_back_as_utc_midnight (instant 2024 6 30 22 30)).
  vm_compute. split; discriminate.
Defined.


(** The week and the month of 2024-06-03, asked at noon UTC on
    2024-06-05, two hours east and five hours west of Greenwich. *)
Lemma isSameWeek_east_witness :
  isSameWeek 120 (instant 2024 6 5 12 0) (date_string 19877)
  = spec_isSameWeek 19877 (Day (LocalTime 120 (instant 2024 6 5 12 0))).
Proof.
  apply (Dates.isSameWeek_east 120 (instant 2024 6 5 12 0) 19877).
  - lia.
  - lia.
  - vm_compute. split; discriminate.
Defined.

Lemma isSameWeek_west_witness :
  isSameWeek (-300) (instant 2024 6 5 17 0) (date_string 19877)
  = spec_isSameWeek (19877 - 1) (Day (LocalTime (-300) (instant 2024 6 5 17 0))).
Proof.
  apply (Dates.isSameWeek_west (-300) (instant 2024 6 5 17 0) 19877).
  - lia.
  - lia.
  - vm_compute. split; discriminate.
Defined.

Lemma isSameMonth_east_witness :
  isSameMonth 120 (instant 2024 6 5 12 0) (date_string 19877)
  = spec_isSameMonth 19877 (Day (LocalTime 120 (instant 2024 6 5 12 0))).
Proof.
  apply (Dates.isSameMonth_east 120 (instant 2024 6 5 12 0) 19877); lia.
Defined.

Lemma isSameMonth_west_witness :
  isSameMonth (-300) (instant 2024 6 5 17 0) (date_string 19877)
  = spec_isSameMonth (19877 - 1) (Day (LocalTime (-300) (instant 2024 6 5 17 0))).
Proof.
  apply (Dates.isSameMonth_west (-300) (instant 2024 6 5 17 0) 19877); lia.
Defined.

(* ===================================================================== *)
(** * Sessions: what holds whatever the user does *)
(* ===================================================================== *)

Module Machine.

Import SqlFacts.

Lemma NoDup_id_inj (l : list Expense.t) (a b : Expense.t) :
  NoDup (map Expense.id l) -> In a l -> In b l ->
  Expense.id a = Expense.id b -> a = b.
Proof.
  induction l as [|x l IH]; simpl; intros Hnd Ha Hb E; [contradiction|].
  inversion Hnd as [|? ? Hx Hl]; subst.
  destruct Ha as [->|Ha]; destruct Hb as [->|Hb].
  - reflexivity.
  - exfalso. apply Hx. rewrite E. apply in_map. exact Hb.
  - exfalso. apply Hx. rewrite <- E. apply in_map. exact Ha.
  - apply IH; assumption.
Qed.

Lemma trimEnd_idem (t : string) : trimEnd (trimEnd t) = trimEnd t.
Proof.
  induction t as [|c t IH]; simpl; [reflexivity|].
  destruct (is_space c && is_empty (trimEnd t)) eqn:E; simpl; [reflexivity|].
  rewrite IH, E. reflexivity.
Qed.

Lemma trimStart_head (s : string) :
  trimStart s = "" \/ exists c r, trimStart s = String c r /\ is_space c = false.
Proof.
  induction s as [|c s IH]; simpl; [left; reflexivity|].
  destruct (is_space c) eqn:E; [exact IH|].
  right. exists c, s. split; [reflexivity|exact E].
Qed.

(** Trimming twice is trimming once. *)
Lemma trim_idem (s : string) : trim (trim s) = trim s.
Proof.
  unfold trim. destruct (trimStart_head s) as [E|[c [r [E Hc]]]]; rewrite E.
  - reflexivity.
  - assert (H : trimEnd (String c r) = String c (trimEnd r))
      by (simpl; rewrite Hc; reflexivity).
    rewrite H. simpl trimStart. rewrite Hc.
    simpl. rewrite Hc. simpl. rewrite trimEnd_idem. reflexivity.
Qed.

Lemma handle_in_sync (ev : Event) (w : World) :
  in_sync w -> in_sync (handle ev w).
Proof.
  unfold in_sync. intro H. destruct ev; simpl; try exact H.
  - destruct (Adding.guarded_dec (State.amount (state w)) (State.category (state w)))
      as [G|[Hn [Hl Hc]]].
    + rewrite (Adding.addExpense_guarded now w G). exact H.
    + rewrite (addExpense_accepts now w Hn Hl Hc). reflexivity.
  - destruct (nth_error _ k); [exact H|exact H].
  - destruct (nth_error _ k); [reflexivity|exact H].
  - unfold editAmount. destruct (State.editingExpense (state w)); exact H.
  - unfold editCategory. destruct (State.editingExpense (state w)); exact H.
  - unfold editNote. destruct (State.editingExpense (state w)); exact H.
  - unfold handleSaveEdit. destruct (State.editingExpense (state w)); [reflexivity|exact H].
Qed.

Lemma dates_kept_refl (tb : Sql.table) : dates_kept tb tb.
Proof. intros r Hr. left. exists r. repeat split. exact Hr. Qed.

Lemma dates_kept_trans (t0 t1 t2 : Sql.table) :
  Sql.seq t0 <= Sql.seq t1 -> dates_kept t0 t1 -> dates_kept t1 t2 -> dates_kept t0 t2.
Proof.
  intros Hs H01 H12 r2 Hr2.
  destruct (H12 r2 Hr2) as [[r1 [Hr1 [Ei Ed]]]|Hnew]; [|right; lia].
  destruct (H01 r1 Hr1) as [[r0 [Hr0 [Ei0 Ed0]]]|Hnew]; [|right; lia].
  left. exists r0. split; [exact Hr0|]. split; congruence.
Qed.

Lemma in_select_all (tb : Sql.table) (r : Expense.t) :
  In r (Sql.select_all tb) -> In r (Sql.rows tb).
Proof. apply Permutation_in. apply Repo.order_perm. Qed.

(** What one event keeps. *)
Lemma handle_screen_ok (ev : Event) (w : World) :
  screen_ok w ->
  screen_ok (handle ev w)
  /\ dates_kept (table w) (table (handle ev w))
  /\ Sql.seq (table w) <= Sql.seq (table (handle ev w)).
Proof.
  intros [Hok [Hsync Hedit]].
  assert (Hsync' : in_sync (handle ev w)) by (apply handle_in_sync; exact Hsync).
  assert (Hsame : forall w', table w' = table w ->
            edit_ok w' -> in_sync w' ->
            screen_ok w' /\ dates_kept (table w) (table w')
            /\ Sql.seq (table w) <= Sql.seq (table w')).
  { intros w' Et He Hs. rewrite Et. split; [|split; [apply dates_kept_refl|lia]].
    split; [rewrite Et; exact Hok|]. split; assumption. }
  assert (Hkeep : forall w', table w' = table w ->
            State.editingExpense (state w') = State.editingExpense (state w) ->
            edit_ok w').
  { intros w' Et Ee e He. rewrite Et. apply Hedit. rewrite <- Ee. exact He. }
  destruct Hok as [Hnd Hle].
  destruct ev as [t|t|t|now|m|k|k|t|t|t| |].
  - apply Hsame; [reflexivity| |exact Hsync']. apply Hkeep; reflexivity.
  - apply Hsame; [reflexivity| |exact Hsync']. apply Hkeep; reflexivity.
  - apply Hsame; [reflexivity| |exact Hsync']. apply Hkeep; reflexivity.
  - (* PressAdd *)
    destruct (Adding.guarded_dec (State.amount (state w)) (State.category (state w)))
      as [G|[Hn [Hl Hc]]].
    + simpl. rewrite (Adding.addExpense_guarded now w G). simpl.
      apply Hsame; [reflexivity|exact Hedit|exact Hsync].
    + simpl in *. rewrite (addExpense_accepts now w Hn Hl Hc) in *. simpl in *.
      set (st := Sql.Insert (parseFloat (State.amount (state w)))
                   (trim (State.category (state w))) (trim (State.note (state w)))
                   (slice0 10 (toISOString now))).
      change (Sql.insert _ _ _ _ (table w)) with (Sql.run st (table w)).
      pose proof (TableInv.run_table_ok st (table w) (conj Hnd Hle)) as Hok'.
      pose proof (TableInv.run_seq_mono st (table w)) as Hmono.
      assert (Hfresh : Sql.seq (table w) < Sql.next_id (table w))
        by (unfold Sql.next_id; lia).
      assert (Hrows : Sql.rows (Sql.run st (table w))
                      = (Sql.rows (table w)
                         ++ [Expense.mk (Sql.next_id (table w))
                               (parseFloat (State.amount (state w)))
                               (trim (State.category (state w)))
                               (Some (trim (State.note (state w))))
                               (slice0 10 (toISOString now))])%list)
        by reflexivity.
      split; [split; [exact Hok'|split; [reflexivity|]]|split; [|exact Hmono]].
      * intros e He. destruct (Hedit e He) as [H1 H2].
        split; [eapply Z.le_trans; [exact H1|exact Hmono]|].
        intros r Hr Ei. change (In r (Sql.rows (Sql.run st (table w)))) in Hr.
        rewrite Hrows in Hr.
        apply in_app_iff in Hr.
        destruct Hr as [Hr|[<-|[]]]; [apply H2; assumption|].
        cbn [Expense.id] in Ei. lia.
      * intros r Hr. change (In r (Sql.rows (Sql.run st (table w)))) in Hr.
        rewrite Hrows in Hr. apply in_app_iff in Hr.
        destruct Hr as [Hr|[<-|[]]].
        -- left. exists r. repeat split. exact Hr.
        -- right. cbn [Expense.id]. exact Hfresh.
  - apply Hsame; [reflexivity| |exact Hsync']. apply Hkeep; reflexivity.
  - (* PressEdit *)
    simpl. destruct (nth_error (State.expenses (state w)) k) as [item|] eqn:Ek.
    + apply Hsame; [reflexivity| |exact Hsync].
      intros e He. simpl in He. injection He as <-.
      assert (Hin : In item (Sql.rows (table w))).
      { apply in_select_all. rewrite <- Hsync. eapply nth_error_In. exact Ek. }
      split.
      * rewrite Forall_forall in Hle. apply Hle. exact Hin.
      * intros r Hr Ei. rewrite (NoDup_id_inj _ r item Hnd Hr Hin Ei). reflexivity.
    + apply Hsame; [reflexivity|exact Hedit|exact Hsync].
  - (* PressDelete *)
    simpl in *. destruct (nth_error (State.expenses (state w)) k) as [item|] eqn:Ek.
    + simpl in *.
      change (Sql.delete (Expense.id item) (table w))
        with (Sql.run (Sql.Delete (Expense.id item)) (table w)).
      pose proof (TableInv.run_table_ok (Sql.Delete (Expense.id item)) (table w)
                    (conj Hnd Hle)) as Hok'.
      split; [split; [exact Hok'|split; [reflexivity|]]|split; [|simpl; lia]].
      * intros e He. simpl in He. destruct (Hedit e He) as [H1 H2].
        split; [exact H1|]. intros r Hr Ei. simpl in Hr.
        apply filter_In in Hr. apply H2; [apply Hr|exact Ei].
      * intros r Hr. simpl in Hr. apply filter_In in Hr.
        left. exists r. repeat split. apply Hr.
    + apply Hsame; [reflexivity|exact Hedit|exact Hsync].
  - (* EditAmount *)
    simpl. unfold editAmount.
    destruct (State.editingExpense (state w)) as [e|] eqn:Ee;
      (apply Hsame; [reflexivity| |exact Hsync]); [|exact Hedit].
    intros e' He'. simpl in He'. injection He' as <-. simpl. apply Hedit. exact Ee.
  - simpl. unfold editCategory.
    destruct (State.editingExpense (state w)) as [e|] eqn:Ee;
      (apply Hsame; [reflexivity| |exact Hsync]); [|exact Hedit].
    intros e' He'. simpl in He'. injection He' as <-. simpl. apply Hedit. exact Ee.
  - simpl. unfold editNote.
    destruct (State.editingExpense (state w)) as [e|] eqn:Ee;
      (apply Hsame; [reflexivity| |exact Hsync]); [|exact Hedit].
    intros e' He'. simpl in He'. injection He' as <-. simpl. apply Hedit. exact Ee.
  - (* PressSave *)
    simpl in *. unfold handleSaveEdit in *.
    destruct (State.editingExpense (state w)) as [e|] eqn:Ee.
    + simpl in *.
      set (st := Sql.Update (Expense.amount e) (Expense.category e)
                   (or_empty (Expense.note e)) (Expense.date e) (Expense.id e)).
      change (Sql.update _ _ _ _ _ (table w)) with (Sql.run st (table w)).
      pose proof (TableInv.run_table_ok st (table w) (conj Hnd Hle)) as Hok'.
      split; [split; [exact Hok'|split; [reflexivity|]]|split; [|simpl; lia]].
      * intros e' He'. discriminate He'.
      * intros r Hr. simpl in Hr. apply in_map_iff in Hr.
        destruct Hr as [x [Hx Hin]]. left. exists x. split; [exact Hin|].
        destruct (Expense.id x =? Expense.id e) eqn:Ei; subst r; simpl.
        -- apply Z.eqb_eq in Ei. split; [reflexivity|].
           destruct (Hedit e Ee) as [_ H2]. apply H2; assumption.
        -- split; reflexivity.
    + apply Hsame; [reflexivity|exact Hedit|exact Hsync].
  - (* PressCancel *)
    apply Hsame; [reflexivity| |exact Hsync'].
    intros e He. discriminate He.
Qed.

Lemma session_screen_ok (evs : list Event) :
  forall w, screen_ok w ->
    screen_ok (session evs w)
    /\ dates_kept (table w) (table (session evs w))
    /\ Sql.seq (table w) <= Sql.seq (table (session evs w)).
Proof.
  induction evs as [|ev evs IH]; intros w Hw.
  - simpl. split; [exact Hw|split; [apply dates_kept_refl|lia]].
  - destruct (handle_screen_ok ev w Hw) as [H1 [H2 H3]].
    destruct (IH (handle ev w) H1) as [K1 [K2 K3]].
    change (session (ev :: evs) w) with (session evs (handle ev w)).
    split; [exact K1|]. split; [|lia].
    eapply dates_kept_trans; eassumption.
Qed.

Lemma mount_screen_ok (tb : Sql.table) : table_ok tb -> screen_ok (mount tb).
Proof.
  intro H. split; [exact H|]. split; [reflexivity|].
  intros e He. discriminate He.
Qed.

Lemma session_in_sync (evs : list Event) :
  forall w, in_sync w -> in_sync (session evs w).
Proof.
  induction evs as [|ev evs IH]; intros w H; [exact H|].
  apply (IH (handle ev w)). apply handle_in_sync. exact H.
Qed.

(** X18.  Whatever the user does after the screen is mounted, the
    records in memory are the rows of the table, each once, newest id
    first: memory never drifts from the table. *)
Theorem session_keeps_memory_in_sync :
  forall (tb : Sql.table) (evs : list Event),
    let w := session evs (mount tb) in
    State.expenses (state w) = Sql.select_all (table w)
    /\ Permutation (State.expenses (state w)) (Sql.rows (table w))
    /\ StronglySorted newer (State.expenses (state w)).
Proof.
  intros tb evs w.
  assert (H : in_sync w) by (apply session_in_sync; reflexivity).
  unfold in_sync in H. rewrite H.
  split; [reflexivity|]. split; [apply Repo.order_perm|apply select_all_descending].
Qed.

(** X19.  Over a table whose ids are in use once, whatever the user
    does the ids stay in use once, the id counter never goes down, and
    the keys the list gives its rows ([item.id]) are all different. *)
Theorem session_keeps_ids_unique :
  forall (tb : Sql.table) (evs : list Event),
    table_ok tb ->
    let w := session evs (mount tb) in
    table_ok (table w)
    /\ Sql.seq tb <= Sql.seq (table w)
    /\ NoDup (map Expense.id (State.expenses (state w))).
Proof.
  intros tb evs Hok w.
  destruct (session_screen_ok evs (mount tb) (mount_screen_ok tb Hok))
    as [[Hok' [Hsync _]] [_ Hseq]].
  fold w in Hok', Hsync, Hseq. split; [exact Hok'|]. split; [exact Hseq|].
  unfold in_sync in Hsync. rewrite Hsync.
  apply (Permutation_NoDup (l := map Expense.id (Sql.rows (table w)))).
  - apply Permutation_map. apply Permutation_sym. apply Repo.order_perm.
  - apply Hok'.
Qed.

(** X20.  No sequence of actions on the screen changes the date of an
    expense: a row that is still in the table under its id has the
    date it had when the screen was mounted (the edit panel has no date
    field, and saving writes the date the edit started from). *)
Theorem session_never_changes_a_date :
  forall (tb : Sql.table) (evs : list Event) (r r' : Expense.t),
    table_ok tb ->
    In r (Sql.rows tb) ->
    In r' (Sql.rows (table (session evs (mount tb)))) ->
    Expense.id r' = Expense.id r ->
    Expense.date r' = Expense.date r.
Proof.
  intros tb evs r r' Hok Hr Hr' Ei.
  destruct (session_screen_ok evs (mount tb) (mount_screen_ok tb Hok))
    as [_ [Hkept _]].
  destruct (Hkept r' Hr') as [[r0 [Hr0 [Ei0 Ed0]]]|Hnew].
  - simpl in Hr0. destruct Hok as [Hnd _].
    assert (E : r0 = r) by (apply (NoDup_id_inj _ r0 r Hnd Hr0 Hr); congruence).
    subst r0. symmetry. exact Ed0.
  - exfalso. destruct Hok as [_ Hle]. rewrite Forall_forall in Hle.
    specialize (Hle r Hr). simpl in Hnew. lia.
Qed.

Lemma created_row_passed_guards (now : Z) (w : World) :
  isNaN (parseFloat (State.amount (state w))) = false ->
  le0 (parseFloat (State.amount (state w))) = false ->
  trim (State.category (state w)) <> "" ->
  passed_guards (created_row now w).
Proof.
  intros Hn Hl Hc. unfold passed_guards. simpl.
  split; [exact Hn|]. split; [exact Hl|]. split; [exact Hc|apply trim_idem].
Qed.

Lemma handle_guards (ev : Event) (w : World) :
  not_save ev ->
  Forall passed_guards (Sql.rows (table w)) ->
  Forall passed_guards (Sql.rows (table (handle ev w))).
Proof.
  intros Hns H. destruct ev as [t|t|t|now|m|k|k|t|t|t| |]; simpl; try exact H.
  - destruct (Adding.guarded_dec (State.amount (state w)) (State.category (state w)))
      as [G|[Hn [Hl Hc]]].
    + rewrite (Adding.addExpense_guarded now w G). exact H.
    + rewrite (addExpense_accepts now w Hn Hl Hc). simpl.
      apply Forall_app. split; [exact H|].
      constructor; [|constructor].
      exact (created_row_passed_guards now w Hn Hl Hc).
  - destruct (nth_error _ k); exact H.
  - destruct (nth_error _ k) as [item|]; [|exact H]. simpl.
    apply Forall_forall. intros r Hr. apply filter_In in Hr.
    rewrite Forall_forall in H. apply H. apply Hr.
  - unfold editAmount. destruct (State.editingExpense (state w)); exact H.
  - unfold editCategory. destruct (State.editingExpense (state w)); exact H.
  - unfold editNote. destruct (State.editingExpense (state w)); exact H.
  - contradiction.
Qed.

(** X21.  As long as no edit is saved, every row in the table has what
    the guards of [addExpense] ask for: an amount that is a number
    above zero and a category that is not empty and has no white space
    at either end.  Adding and deleting keep this. *)
Theorem session_without_save_keeps_rows_valid :
  forall (tb : Sql.table) (evs : list Event),
    Forall passed_guards (Sql.rows tb) ->
    Forall not_save evs ->
    Forall passed_guards (Sql.rows (table (session evs (mount tb)))).
Proof.
  intros tb evs Htb Hev.
  change tb with (table (mount tb)) in Htb. revert Htb.
  generalize (mount tb). induction Hev as [|ev evs Hns _ IH]; intros w Hw.
  - exact Hw.
  - apply (IH (handle ev w)). apply handle_guards; assumption.
Qed.


(** X23.  Clearing the amount box of the edit panel (or leaving only
    white space in it) and saving stores the amount 0, which the add
    form turns away. *)
Theorem blank_edit_amount_saves_zero :
  forall (w : World) (k : nat) (item : Expense.t) (a : string),
    nth_error (State.expenses (state w)) k = Some item ->
    trim a = "" ->
    let w' := session [PressEdit k; EditAmount a; PressSave] w in
    let row := Expense.mk (Expense.id item) zero (Expense.category item)
                 (Some (or_empty (Expense.note item))) (Expense.date item) in
    Sql.select_all (table w')
    = map (fun r => if Expense.id r =? Expense.id item then row else r)
          (Sql.select_all (table w))
    /\ le0 zero = true.
Proof.
  intros w k item a Hk Ha w' row. split; [|reflexivity].
  assert (Hnum : Number a = zero) by (unfold Number; rewrite Ha; reflexivity).
  assert (E : w' = snd (handleSaveEdit
                 (setEditingExpense
                    (Some (Expense.mk (Expense.id item) zero (Expense.category item)
                             (Expense.note item) (Expense.date item))) w))).
  { unfold w', session. simpl. rewrite Hk. simpl. unfold editAmount. simpl.
    rewrite Hnum. reflexivity. }
  rewrite E. unfold handleSaveEdit. simpl.
  unfold Sql.select_all, Sql.update. simpl.
  rewrite <- order_map.
  - f_equal. apply map_ext. intro r. unfold row.
    destruct (Expense.id r =? Expense.id item) eqn:Ei; [|reflexivity].
    apply Z.eqb_eq in Ei. rewrite Ei. reflexivity.
  - intro r. destruct (Expense.id r =? Expense.id item) eqn:Ei; [|reflexivity].
    apply Z.eqb_eq in Ei. simpl. symmetry. exact Ei.
Qed.

End Machine.

(** A session over the table of two rows: delete the newest row, add
    one. *)
Lemma session_keeps_ids_unique_witness :
  table_ok
    (table (session [PressDelete 0; TypeAmount "3"; TypeCategory "Tea"; PressAdd 0]
              (mount (table editing)))).
Proof.
  refine (proj1 (Machine.session_keeps_ids_unique (table editing)
                   [PressDelete 0; TypeAmount "3"; TypeCategory "Tea"; PressAdd 0] _)).
  split.
  - simpl. repeat constructor; simpl; intuition discriminate.
  - simpl. repeat constructor; simpl; lia.
Defined.

(** The older row, edited and saved, keeps its date. *)
Lemma session_never_changes_a_date_witness :
  Expense.date (Expense.mk 1 (Number "5") "Food" (Some "") "2024-06-03")
  = Expense.date (Expense.mk 1 (of_Z 10) "Food" None "2024-06-03").
Proof.
  refine (Machine.session_never_changes_a_date (table editing)
            [PressEdit 1; EditAmount "5"; PressSave]
            (Expense.mk 1 (of_Z 10) "Food" None "2024-06-03")
            (Expense.mk 1 (Number "5") "Food" (Some "") "2024-06-03") _ _ _ _).
  - split.
    + simpl. repeat constructor; simpl; intuition discriminate.
    + simpl. repeat constructor; simpl; lia.
  - simpl. left. reflexivity.
  - vm_compute. left. reflexivity.
  - reflexivity.
Defined.

Lemma session_without_save_keeps_rows_valid_witness :
  Forall passed_guards
    (Sql.rows (table (session [TypeAmount "3"; TypeCategory " Tea "; PressAdd 0; PressDelete 1]
                        (mount (table editing))))).
Proof.
  refine (Machine.session_without_save_keeps_rows_valid (table editing)
            [TypeAmount "3"; TypeCategory " Tea "; PressAdd 0; PressDelete 1] _ _).
  - simpl. repeat constructor; try discriminate; vm_compute; reflexivity.
  - repeat constructor.
Defined.


Lemma blank_edit_amount_saves_zero_witness :
  Sql.select_all (table (session [PressEdit 1; EditAmount "  "; PressSave] editing))
  = map (fun r => if Expense.id r =? 1
                  then Expense.mk 1 zero "Food" (Some "") "2024-06-03" else r)
        (Sql.select_all (table editing)).
Proof.
  refine (proj1 (Machine.blank_edit_amount_saves_zero editing 1
                   (Expense.mk 1 (of_Z 10) "Food" None "2024-06-03") "  " _ _)).
  - reflexivity.
  - reflexivity.
Defined.

Lemma handleSaveEdit_missing_id_changes_nothing_witness :
  table (snd (handleSaveEdit
                (setEditingExpense (Some (Expense.mk 9 zero "" None "")) editing)))
  = table editing.
Proof.
  refine (proj1 (proj2 (Repo.handleSaveEdit_missing_id_changes_nothing
                          (setEditingExpense (Some (Expense.mk 9 zero "" None "")) editing)
                          (Expense.mk 9 zero "" None "") _ _))).
  - reflexivity.
  - intros r [<-|[<-|[]]]; discriminate.
Defined.

Example Number_examples :
  eqb (Number " 12.50 ") (Fin (Q2Qc (25 # 2))) = true
  /\ Number "12abc" = NaN
  /\ eqb (Number "") zero = true
  /\ eqb (Number "0x1F") (of_Z 31) = true
  /\ Number "0x" = NaN
  /\ Number "-Infinity" = NInf
  /\ eqb (Number "1e3") (of_Z 1000) = true
  /\ Number "1e" = NaN
  /\ Number "." = NaN
  /\ eqb (Number "-.5") (Fin (Q2Qc (-1 # 2))) = true.
Proof. vm_compute. repeat split. Qed.
